(** * manipulate_pdf.py: a shallow embedding and its verified properties

    The script walks the pages of a PDF, decodes every embedded image,
    optionally asks a remote service for a description, applies the
    configured filters, burns the wrapped description into the image and
    re-inserts the result at the original bounding box.

    Python values are modelled by [pyval], Python exceptions by [result],
    the file system by a finite map from paths to file contents, and the
    observable effects (printed messages, HTTP posts, document opens) by a
    trace.  The libraries the script calls (PIL, requests, fitz, base64)
    are an interface, the class [Env]; every theorem holds for every
    implementation of it.

    What the model takes from the libraries rather than from the script:
    - [font.getbbox], the filters, [convert] and [ImageDraw.text] return
      (they do not raise); [Image.open], [ImageFont.truetype],
      [Image.save], [requests.post], [response.json], [fitz.open],
      [os.remove], [page.insert_image] and [doc.save] may raise;
    - [page.insert_image] accepts a file that holds the JPEG encoding PIL
      wrote for an image;
    - [page.get_image_info()] lists the images of the page in the order of
      [page.get_images()], followed by the images inserted since;
    - JSON numbers are integers, and a character is a code point
      below 256. *)

From Stdlib Require Import ZArith Ascii String List Bool Lia.
From stdpp Require Import base option list strings gmap.

Set Warnings "-register-all".
Local Open Scope Z_scope.

(** ** Python strings

    A [str] is modelled by [string]; a character is a code point
    below 256. *)

Module PyStr.

(** [c.isspace()] for a code point below 256: U+0009..U+000D,
    U+001C..U+0020, U+0085 and U+00A0. *)
Definition isspace (c : ascii) : bool :=
  let n := N_of_ascii c in
  ((9 <=? n) && (n <=? 13))%N || ((28 <=? n) && (n <=? 32))%N
  || (n =? 133)%N || (n =? 160)%N.

Definition space : ascii := " "%char.

(** [s == ''] *)
Definition is_empty (s : string) : bool :=
  match s with EmptyString => true | String _ _ => false end.

(** [s.split(sep)] for a separator of one character.  The result is never
    empty: [''.split(' ') == ['']]. *)
Fixpoint split (sep : ascii) (s : string) : list string :=
  match s with
  | EmptyString => [EmptyString]
  | String c s' =>
      if Ascii.eqb c sep then EmptyString :: split sep s'
      else match split sep s' with
           | [] => [String c EmptyString]
           | w :: ws => String c w :: ws
           end
  end.

(** [s.lstrip()], [s.rstrip()] and [s.strip()] *)
Fixpoint lstrip (s : string) : string :=
  match s with
  | EmptyString => EmptyString
  | String c s' => if isspace c then lstrip s' else s
  end.

Fixpoint rstrip (s : string) : string :=
  match s with
  | EmptyString => EmptyString
  | String c s' =>
      let r := rstrip s' in
      if isspace c && is_empty r then EmptyString else String c r
  end.

Definition strip (s : string) : string := rstrip (lstrip s).

(** Whether [s] starts with a character that is not white space. *)
Definition starts_word (s : string) : bool :=
  match s with
  | EmptyString => false
  | String c _ => negb (isspace c)
  end.

(** [s.split()]: the maximal runs of characters that are not white space,
    in order.  This is the word sequence of a text. *)
Fixpoint words (s : string) : list string :=
  match s with
  | EmptyString => []
  | String c s' =>
      if isspace c then words s'
      else if starts_word s' then
             match words s' with
             | [] => [String c EmptyString]
             | w :: ws => String c w :: ws
             end
           else String c EmptyString :: words s'
  end.

(** [sep.join(l)] for the separator [' '] *)
Fixpoint join (l : list string) : string :=
  match l with
  | [] => EmptyString
  | [w] => w
  | w :: ws => w +:+ String space (join ws)
  end.

End PyStr.

(** ** Python values and exceptions *)

(** The values a JSON document decodes to.  [PyNone] is [None]; numbers
    are integers. *)
Inductive pyval : Type :=
| PyNone
| PyBool (b : bool)
| PyInt (z : Z)
| PyStr (s : string)
| PyList (l : list pyval)
| PyDict (d : list (string * pyval)).

(** A subscript: [v['k']] or [v[i]]. *)
Inductive pykey : Type :=
| KStr (s : string)
| KInt (z : Z).

(** The exception classes the script can meet.  All of them derive from
    [Exception].  [LibraryError] stands for whatever a library raises
    (an [OSError] of PIL, a [ConnectionError] of requests, a
    [JSONDecodeError], a [RuntimeError] of fitz). *)
Inductive exn : Type :=
| KeyError
| IndexError
| TypeError
| AttributeError
| FileNotFoundError
| LibraryError (what : string).

(** The outcome of a Python call: it returns a value or raises. *)
Inductive result (A : Type) : Type :=
| Ok (a : A)
| Raise (e : exn).
Arguments Ok {A} a.
Arguments Raise {A} e.

Definition is_raise {A} (r : result A) : bool :=
  match r with Ok _ => false | Raise _ => true end.

Module Py.

Fixpoint dict_get (d : list (string * pyval)) (k : string) : result pyval :=
  match d with
  | [] => Raise KeyError
  | (k', v) :: d' => if String.eqb k' k then Ok v else dict_get d' k
  end.

(** Sequence indexing with Python's negative indices. *)
Definition seq_get {A} (l : list A) (i : Z) : result A :=
  let n := Z.of_nat (length l) in
  let j := if i <? 0 then i + n else i in
  if (j <? 0) || (n <=? j) then Raise IndexError
  else match nth_error l (Z.to_nat j) with
       | Some x => Ok x
       | None => Raise IndexError
       end.

Definition chars (s : string) : list string :=
  map (fun c => String c EmptyString) (list_ascii_of_string s).

(** [v[k]] *)
Definition getitem (v : pyval) (k : pykey) : result pyval :=
  match v, k with
  | PyDict d, KStr s => dict_get d s
  | PyDict _, KInt _ => Raise KeyError
  | PyList l, KInt i => seq_get l i
  | PyList _, KStr _ => Raise TypeError
  | PyStr s, KInt i =>
      match seq_get (chars s) i with
      | Ok c => Ok (PyStr c)
      | Raise e => Raise e
      end
  | PyStr _, KStr _ => Raise TypeError
  | _, _ => Raise TypeError
  end.

End Py.

(** ** The world: files, observable effects, and the monad of the script *)

Definition bytes : Type := list Byte.byte.

(** An HTTP request as [requests.post(url=, headers=, json=)] sends it. *)
Record request : Type := {
  url : string;
  headers : list (string * string);
  payload : pyval
}.

(** An HTTP response: its status code and the outcome of [response.json()],
    which raises when the body is not JSON. *)
Record response : Type := {
  status_code : Z;
  json : result pyval
}.

(** What the script prints.  [Text] is a literal message; the other
    constructors carry the values the f-string interpolates. *)
Inductive message : Type :=
| Text (s : string)
| PathMissing (path : string)
| ResponseDump (v : pyval)
| DescriptionError (e : exn)
| WrapMissing (text : pyval) (max_width : option Z)
| ProcessingPage (number : Z)
| Describing (img_index : nat) (number : Z)
| SnapshotError (path : string) (e : exn)
| Blurring (img_index : nat) (number : Z)
| Embossing (img_index : nat) (number : Z)
| GrayScaling (img_index : nat) (number : Z)
| Blackening (img_index : nat) (number : Z)
| Printed (e : exn).

Inductive event : Type :=
| Print (m : message)
| Post (r : request)
| Open (path : string).

Record world : Type := {
  files : gmap string bytes;
  trace : list event
}.

(** A computation reads and changes the world and returns or raises; the
    changes made before an exception stay. *)
Definition M (A : Type) : Type := world -> result A * world.

Definition ret {A} (a : A) : M A := fun w => (Ok a, w).

Definition bind {A B} (m : M A) (k : A -> M B) : M B :=
  fun w => match m w with
           | (Ok a, w') => k a w'
           | (Raise e, w') => (Raise e, w')
           end.

Notation "'let*' x ':=' m 'in' k" := (bind m (fun x => k))
  (at level 10, x name, m at level 100, k at level 200).
Notation "m ';;;' k" := (bind m (fun _ => k))
  (at level 100, k at level 200, right associativity).

Definition raise {A} (e : exn) : M A := fun w => (Raise e, w).

(** Lift the outcome of a library call. *)
Definition lift {A} (r : result A) : M A := fun w => (r, w).

(** [try: body / except Exception as e: handler(e)] *)
Definition try_except {A} (body : M A) (handler : exn -> M A) : M A :=
  fun w => match body w with
           | (Ok a, w') => (Ok a, w')
           | (Raise e, w') => handler e w'
           end.

Definition emit (ev : event) : M unit :=
  fun w => (Ok tt, {| files := files w; trace := trace w ++ [ev] |}).

Definition print (m : message) : M unit := emit (Print m).

(** [if c: body] *)
Definition when (c : bool) (body : M unit) : M unit :=
  if c then body else ret tt.

(** [os.path.exists(path)] *)
Definition path_exists (path : string) : M bool :=
  fun w => (Ok (bool_decide (is_Some (files w !! path))), w).

(** [open(path, 'rb').read()] *)
Definition read_file (path : string) : M bytes :=
  fun w => match files w !! path with
           | Some content => (Ok content, w)
           | None => (Raise FileNotFoundError, w)
           end.

Definition write_file (path : string) (content : bytes) : M unit :=
  fun w => (Ok tt, {| files := <[path := content]> (files w); trace := trace w |}).

(** ** text_wrap *)

(** A font is a metric source: [getbbox] gives (left, top, right, bottom). *)
Record font : Type := {
  getbbox : string -> Z * Z * Z * Z
}.

Definition bbox_width (b : Z * Z * Z * Z) : Z :=
  let '(x0, _, x2, _) := b in x2 - x0.

Definition bbox_height (b : Z * Z * Z * Z) : Z :=
  let '(_, y1, _, y3) := b in y3 - y1.

(** The rendered width of a line, as [getbbox] measures it. *)
Definition rendered_width (f : font) (s : string) : Z :=
  bbox_width (getbbox f s).

(** The [while i < len(words)] loop of [text_wrap]: [ws] are the words from
    index [i] on, [lines] and [line] are the loop's variables.  The width
    that is measured is that of the whole [text]. *)
Fixpoint wrap_loop (text : string) (f : font) (max_width : Z)
    (ws : list string) (lines : list string) (line : string)
    : list string * string :=
  match ws with
  | [] => (lines, line)
  | word :: rest =>
      let test_line := line +:+ word +:+ " " in
      let bbox := getbbox f text in
      let text_width := bbox_width bbox in
      if text_width >? max_width
      then wrap_loop text f max_width rest
             (lines ++ [PyStr.strip line]) (word +:+ " ")
      else wrap_loop text f max_width rest lines test_line
  end.

Definition text_wrap (text : pyval) (f : option font) (max_width : option Z)
    : M (list string) :=
  match text, f, max_width with
  | PyNone, _, _ | _, None, _ | _, _, None =>
      print (WrapMissing text max_width);;;
      ret []
  | PyStr s, Some fnt, Some mw =>
      let words := PyStr.split PyStr.space s in
      let '(lines, line) := wrap_loop s fnt mw words [] EmptyString in
      ret (lines ++ [PyStr.strip line])
  | _, Some _, Some _ =>
      (* [text.split] on a value that is not a str *)
      raise AttributeError
  end.

(** ** The document and the command line *)

Definition rect : Type := Z * Z * Z * Z.

(** An image of a page as [page.get_images(full=True)] lists it, with the
    encoded bytes [doc.extract_image(xref)["image"]] gives for it and the
    bounding box [page.get_image_info()] reports for it. *)
Record pdf_image : Type := {
  xref : Z;
  image_data : bytes;
  image_bbox : rect
}.

(** What [page.insert_image(bbox, filename=, keep_proportion=)] adds. *)
Record insertion : Type := {
  at_bbox : rect;
  inserted_file : bytes;
  keep_proportion : bool
}.

Record page : Type := {
  number : Z;
  images : list pdf_image;
  inserted : list insertion
}.

Definition document : Type := list page.

(** The [argparse.Namespace] that [main] builds. *)
Record Args : Type := {
  pdf_file : string;
  verbose : bool;
  output_file : string;
  blur : Z;
  gray : bool;
  black : bool;
  emboss : bool;
  describe : bool;
  openai_key : string;
  description_prompt : string;
  max_openai_tokens : Z;
  font_size : Z
}.

(** ** The libraries and the operating system

    PIL ([Image.open], [filter], [convert], [width], [ImageDraw.text],
    [save], [ImageFont.truetype]), base64, requests, fitz and [os.remove].
    A save either writes the JPEG encoding of the image to the path or
    raises and leaves the files as [save_error] says.  [os.remove] of a
    path that exists raises what [remove_error] says (a directory, a file
    that may not be removed) or removes the file.  [page.insert_image]
    raises what [insert_error] says for a file that is not an image, and
    [doc.save] what [fitz_save_error] says for the document named [name]
    (a document without pages, an output that is the input, a path that
    cannot be written). *)
Class Env : Type := {
  pil_image : Type;
  Image_open : bytes -> result pil_image;
  GaussianBlur : Z -> pil_image -> pil_image;
  EMBOSS : pil_image -> pil_image;
  convert : string -> pil_image -> pil_image;
  width : pil_image -> Z;
  draw_text : pil_image -> Z * Z -> string -> font -> string -> pil_image;
  jpeg : pil_image -> bytes;
  save_error : pil_image -> string -> gmap string bytes
               -> option (exn * gmap string bytes);
  truetype : string -> Z -> result font;
  b64encode : bytes -> string;
  requests_post : request -> result response;
  fitz_parse : bytes -> result document;
  fitz_write : document -> bytes;
  remove_error : string -> gmap string bytes -> option exn;
  insert_error : bytes -> option exn;
  fitz_save_error : string -> document -> string -> gmap string bytes
                    -> option exn;
  jpeg_inserts : forall im, insert_error (jpeg im) = None
}.

Definition orig_tmp_path : string := "o_tmp.jpg".
Definition tmp_image_path : string := "tmp.jpg".

(** [response['choices'][0]['message']['content']] *)
Definition content_of (response : pyval) : result pyval :=
  match Py.getitem response (KStr "choices") with
  | Raise e => Raise e
  | Ok choices =>
      match Py.getitem choices (KInt 0) with
      | Raise e => Raise e
      | Ok choice =>
          match Py.getitem choice (KStr "message") with
          | Raise e => Raise e
          | Ok msg => Py.getitem msg (KStr "content")
          end
      end
  end.

(** The [headers] and [payload] dictionaries of [get_image_description]. *)
Definition description_request (base64_image prompt model openai_key : string)
    (max_tokens : Z) : request :=
  {| url := "https://api.openai.com/v1/chat/completions";
     headers := [("Content-Type", "application/json");
                 ("Authorization", "Bearer " +:+ openai_key)];
     payload :=
       PyDict
         [("model", PyStr model);
          ("messages",
           PyList
             [PyDict
                [("role", PyStr "user");
                 ("content",
                  PyList
                    [PyDict [("type", PyStr "text"); ("text", PyStr prompt)];
                     PyDict
                       [("type", PyStr "image_url");
                        ("image_url",
                         PyDict
                           [("url",
                             PyStr ("data:image/jpeg;base64,"
                                    +:+ base64_image))])]])]]);
          ("max_tokens", PyInt max_tokens)] |}.

(** The filters of the transform chain, in the order of the script. *)
Inductive filter_kind : Type := FBlur | FEmboss | FGray | FMono.

Section Script.

Context {E : Env}.

(** [requests.post(...)] *)
Definition post (r : request) : M response :=
  emit (Post r);;;
  lift (requests_post r).

(** [os.remove(path)] *)
Definition os_remove (path : string) : M unit :=
  fun w => match files w !! path with
           | Some _ =>
               match remove_error path (files w) with
               | Some e => (Raise e, w)
               | None =>
                   (Ok tt, {| files := delete path (files w);
                              trace := trace w |})
               end
           | None => (Raise FileNotFoundError, w)
           end.

Definition get_image_description (image_path prompt model openai_key : string)
    (max_tokens : Z) (is_verbose : bool) : M pyval :=
  let* found := path_exists image_path in
  if negb found then
    print (PathMissing image_path);;;
    ret PyNone
  else
    try_except
      (let* content := read_file image_path in
       let base64_image := b64encode content in
       let* response :=
         post (description_request base64_image prompt model openai_key
                 max_tokens) in
       let* response := lift (json response) in
       when is_verbose (print (ResponseDump response));;;
       let* description := lift (content_of response) in
       ret description)
      (fun e =>
         print (DescriptionError e);;;
         ret (PyStr ""))
    (* the second clause, [except KeyError], is never reached *).

(** [pil_img.save(path, format='JPEG')] *)
Definition pil_save (pil_img : pil_image) (path : string) : M unit :=
  fun w =>
    match save_error pil_img path (files w) with
    | None =>
        (Ok tt, {| files := <[path := jpeg pil_img]> (files w);
                   trace := trace w |})
    | Some (e, fs) => (Raise e, {| files := fs; trace := trace w |})
    end.

(** Lines 134-153: the description of one image. *)
Definition describe_image (args : Args) (page_number : Z) (img_index : nat)
    (pil_img : pil_image) : M pyval :=
  when (verbose args) (print (Describing img_index page_number));;;
  try_except (pil_save pil_img orig_tmp_path)
    (fun e => print (SnapshotError orig_tmp_path e));;;
  let* description :=
    get_image_description orig_tmp_path (description_prompt args)
      "gpt-4-vision-preview" (openai_key args) (max_openai_tokens args)
      (verbose args) in
  let* found := path_exists orig_tmp_path in
  when found (os_remove orig_tmp_path);;;
  ret description.

(** Lines 155-170: the four filter stages. *)
Definition blur_stage (args : Args) (page_number : Z) (img_index : nat)
    (pil_img : pil_image) : M pil_image :=
  if blur args >? 0 then
    let pil_img := GaussianBlur (blur args) pil_img in
    when (verbose args) (print (Blurring img_index page_number));;;
    ret pil_img
  else ret pil_img.

Definition emboss_stage (args : Args) (page_number : Z) (img_index : nat)
    (pil_img : pil_image) : M pil_image :=
  if emboss args then
    let pil_img := EMBOSS pil_img in
    when (verbose args) (print (Embossing img_index page_number));;;
    ret pil_img
  else ret pil_img.

Definition gray_stage (args : Args) (page_number : Z) (img_index : nat)
    (pil_img : pil_image) : M pil_image :=
  if gray args then
    let pil_img := convert "L" pil_img in
    when (verbose args) (print (GrayScaling img_index page_number));;;
    ret pil_img
  else ret pil_img.

Definition black_stage (args : Args) (page_number : Z) (img_index : nat)
    (pil_img : pil_image) : M pil_image :=
  if black args then
    let pil_img := convert "1" pil_img in
    when (verbose args) (print (Blackening img_index page_number));;;
    ret pil_img
  else ret pil_img.

Definition apply_filters (args : Args) (page_number : Z) (img_index : nat)
    (pil_img : pil_image) : M pil_image :=
  let* pil_img := blur_stage args page_number img_index pil_img in
  let* pil_img := emboss_stage args page_number img_index pil_img in
  let* pil_img := gray_stage args page_number img_index pil_img in
  black_stage args page_number img_index pil_img.

(** Lines 177-185: each line is drawn in white, then in black one pixel
    to the right and below; [y_text] advances by the line's height. *)
Fixpoint draw_lines (fnt : font) (lines : list string) (y_text : Z)
    (pil_img : pil_image) : pil_image :=
  match lines with
  | [] => pil_img
  | line :: rest =>
      let bbox := getbbox fnt line in
      let text_height := bbox_height bbox in
      let pil_img := draw_text pil_img (10, y_text) line fnt "white" in
      let pil_img :=
        draw_text pil_img (10 + 1, y_text + 1) line fnt "black" in
      draw_lines fnt rest (y_text + text_height) pil_img
  end.

(** Lines 172-185: the caption overlay. *)
Definition overlay (args : Args) (description : pyval) (pil_img : pil_image)
    : M pil_image :=
  let max_width := width pil_img in
  let* fnt := lift (truetype "arial.ttf" (font_size args)) in
  let* lines := text_wrap description (Some fnt) (Some max_width) in
  ret (draw_lines fnt lines 10 pil_img).

(** [page.get_image_info()]: the boxes of the page's images, then those of
    the images inserted since. *)
Definition get_image_info (pg : page) : list rect :=
  map image_bbox (images pg) ++ map at_bbox (inserted pg).

(** [page.insert_image(bbox, filename=path, keep_proportion=keep)] *)
Definition insert_image (pg : page) (bbox : rect) (path : string)
    (keep : bool) : M page :=
  let* content := read_file path in
  match insert_error content with
  | Some e => raise e
  | None => ret tt
  end;;;
  ret {| number := number pg;
         images := images pg;
         inserted := inserted pg
                     ++ [{| at_bbox := bbox; inserted_file := content;
                            keep_proportion := keep |}] |}.

(** Lines 130-194: the body of the loop over the images of a page. *)
Definition process_image (args : Args) (pg : page) (img_index : nat)
    (img : pdf_image) : M page :=
  let base_image := image_data img in
  let* pil_img := lift (Image_open base_image) in
  let* description :=
    (if describe args
     then describe_image args (number pg) img_index pil_img
     else ret PyNone) in
  let* pil_img := apply_filters args (number pg) img_index pil_img in
  let* pil_img :=
    (if describe args then overlay args description pil_img
     else ret pil_img) in
  try_except (pil_save pil_img tmp_image_path)
    (fun e => print (Printed e));;;
  let* bbox := lift (Py.seq_get (get_image_info pg) (Z.of_nat img_index)) in
  insert_image pg bbox tmp_image_path true.

(** [for img_index, img in enumerate(image_list)], from index [img_index]. *)
Fixpoint process_images (args : Args) (pg : page) (img_index : nat)
    (image_list : list pdf_image) : M page :=
  match image_list with
  | [] => ret pg
  | img :: rest =>
      let* pg := process_image args pg img_index img in
      process_images args pg (S img_index) rest
  end.

(** Lines 123-197: the body of the loop over the pages. *)
Definition process_page (args : Args) (pg : page) : M page :=
  when (verbose args) (print (ProcessingPage (number pg)));;;
  let image_list := images pg in
  let* pg := process_images args pg 0%nat image_list in
  let* found := path_exists tmp_image_path in
  when found (os_remove tmp_image_path);;;
  ret pg.

Fixpoint process_pages (args : Args) (doc : document) : M document :=
  match doc with
  | [] => ret []
  | pg :: rest =>
      let* pg := process_page args pg in
      let* rest := process_pages args rest in
      ret (pg :: rest)
  end.

(** [fitz.open(path)] *)
Definition fitz_open (path : string) : M document :=
  emit (Open path);;;
  let* content := read_file path in
  lift (fitz_parse content).

(** [doc.save(path)] for the document opened from [name] *)
Definition doc_save (name : string) (doc : document) (path : string)
    : M unit :=
  fun w => match fitz_save_error name doc path (files w) with
           | Some e => (Raise e, w)
           | None => write_file path (fitz_write doc) w
           end.

Definition extract_pdf (args : Args) : M unit :=
  if describe args && PyStr.is_empty (openai_key args) then
    print (Text "Please provide an OpenAI key with the --openai-key flag.");;;
    ret tt
  else
    let pdf := pdf_file args in
    let* doc := fitz_open pdf in
    let* doc := process_pages args doc in
    doc_save pdf doc (output_file args);;;
    ret tt.

End Script.

(** ** Notions the properties are stated with *)

(** The line the loop of [text_wrap] builds when it never flushes. *)
Fixpoint spaced (ws : list string) : string :=
  match ws with
  | [] => ""
  | w :: rest => w +:+ " " +:+ spaced rest
  end.

(** The world after more events. *)
Definition log (w : world) (evs : list event) : world :=
  {| files := files w; trace := trace w ++ evs |}.

(** The world without the file [path]. *)
Definition without_file (path : string) (w : world) : world :=
  {| files := delete path (files w); trace := trace w |}.

(** The page after [insert_image(bbox, ..., keep_proportion=True)] of a
    file that holds [content]. *)
Definition reinserted (pg : page) (bbox : rect) (content : bytes) : page :=
  {| number := number pg;
     images := images pg;
     inserted := inserted pg
                 ++ [{| at_bbox := bbox; inserted_file := content;
                        keep_proportion := true |}] |}.

Section Notions.

Context {E : Env}.

(** The files after [pil_img.save(path)], whether it raised or not. *)
Definition saved_files (pil_img : pil_image) (path : string)
    (fs : gmap string bytes) : gmap string bytes :=
  match save_error pil_img path fs with
  | None => <[path := jpeg pil_img]> fs
  | Some (_, fs') => fs'
  end.

(** The world after a save inside [try]/[except] whose handler prints
    [on_error e]. *)
Definition save_attempt (pil_img : pil_image) (path : string)
    (on_error : exn -> message) (w : world) : world :=
  {| files := saved_files pil_img path (files w);
     trace := trace w
              ++ match save_error pil_img path (files w) with
                 | None => []
                 | Some (e, _) => [Print (on_error e)]
                 end |}.

(** The world in which [get_image_description] is called for an image. *)
Definition after_snapshot (args : Args) (page_number : Z) (img_index : nat)
    (pil_img : pil_image) (w : world) : world :=
  save_attempt pil_img orig_tmp_path (SnapshotError orig_tmp_path)
    (log w (if verbose args
            then [Print (Describing img_index page_number)] else [])).

(** What [get_image_description] does once it has read [content]. *)
Definition described_as (prompt model key : string) (max_tokens : Z)
    (is_verbose : bool) (content : bytes) (w : world)
    : result pyval * world :=
  let r :=
    description_request (b64encode content) prompt model key max_tokens in
  match requests_post r with
  | Raise e => (Ok (PyStr ""), log w [Post r; Print (DescriptionError e)])
  | Ok resp =>
      match json resp with
      | Raise e =>
          (Ok (PyStr ""), log w [Post r; Print (DescriptionError e)])
      | Ok v =>
          let dump :=
            if is_verbose then [Print (ResponseDump v)] else [] in
          match content_of v with
          | Raise e =>
              (Ok (PyStr ""),
               log w (Post r :: dump ++ [Print (DescriptionError e)]))
          | Ok d => (Ok d, log w (Post r :: dump))
          end
      end
  end.

(** Whether the configuration enables a filter. *)
Definition enabled (args : Args) (k : filter_kind) : bool :=
  match k with
  | FBlur => blur args >? 0
  | FEmboss => emboss args
  | FGray => gray args
  | FMono => black args
  end.

(** The fixed order of the transform chain, and the filters of it that
    the configuration enables, in that order. *)
Definition filter_order : list filter_kind := [FBlur; FEmboss; FGray; FMono].

Definition enabled_filters (args : Args) : list filter_kind :=
  List.filter (enabled args) filter_order.

Definition run_filter (args : Args) (pil_img : pil_image) (k : filter_kind)
    : pil_image :=
  match k with
  | FBlur => GaussianBlur (blur args) pil_img
  | FEmboss => EMBOSS pil_img
  | FGray => convert "L" pil_img
  | FMono => convert "1" pil_img
  end.

Definition run_filters (args : Args) (ks : list filter_kind)
    (pil_img : pil_image) : pil_image :=
  fold_left (run_filter args) ks pil_img.

Definition filter_message (page_number : Z) (img_index : nat)
    (k : filter_kind) : event :=
  Print match k with
        | FBlur => Blurring img_index page_number
        | FEmboss => Embossing img_index page_number
        | FGray => GrayScaling img_index page_number
        | FMono => Blackening img_index page_number
        end.

(** The request that carries the bytes [content] of an image file. *)
Definition request_for (args : Args) (content : bytes) : request :=
  description_request (b64encode content) (description_prompt args)
    "gpt-4-vision-preview" (openai_key args) (max_openai_tokens args).

(** The files after the attempt to save the snapshot of [pil_img]. *)
Definition snapshot_files (pil_img : pil_image) (fs : gmap string bytes)
    : gmap string bytes :=
  saved_files pil_img orig_tmp_path fs.

(** A failure in the captioning path: the snapshot is not there after the
    attempt to save it, or the request raises, or the response is not
    JSON, or it lacks [choices[0].message.content]. *)
Definition caption_fails (args : Args) (pil_img : pil_image)
    (fs : gmap string bytes) : bool :=
  match snapshot_files pil_img fs !! orig_tmp_path with
  | None => true
  | Some content =>
      match requests_post (request_for args content) with
      | Raise _ => true
      | Ok resp =>
          match json resp with
          | Raise _ => true
          | Ok v => is_raise (content_of v)
          end
      end
  end.

(** A description that [text_wrap] accepts: [None] or a str. *)
Definition is_text (d : pyval) : bool :=
  match d with
  | PyNone | PyStr _ => true
  | _ => false
  end.

(** The service does not answer with a content of another type: when the
    request for the file at the snapshot's path yields
    [choices[0].message.content], that content is [None] or a str.  This
    holds in particular when the captioning path fails. *)
Definition caption_is_text (args : Args) (pil_img : pil_image)
    (fs : gmap string bytes) : bool :=
  match snapshot_files pil_img fs !! orig_tmp_path with
  | None => true
  | Some content =>
      match requests_post (request_for args content) with
      | Raise _ => true
      | Ok resp =>
          match json resp with
          | Raise _ => true
          | Ok v =>
              match content_of v with
              | Raise _ => true
              | Ok d => is_text d
              end
          end
      end
  end.

End Notions.

(** The image bytes a request carries: what follows the data-URI prefix in
    [payload['messages'][0]['content'][1]['image_url']['url']]. *)
Definition data_uri_prefix : string := "data:image/jpeg;base64,".

Definition image_url_of (r : request) : result pyval :=
  match Py.getitem (payload r) (KStr "messages") with
  | Raise e => Raise e
  | Ok v1 =>
  match Py.getitem v1 (KInt 0) with
  | Raise e => Raise e
  | Ok v2 =>
  match Py.getitem v2 (KStr "content") with
  | Raise e => Raise e
  | Ok v3 =>
  match Py.getitem v3 (KInt 1) with
  | Raise e => Raise e
  | Ok v4 =>
  match Py.getitem v4 (KStr "image_url") with
  | Raise e => Raise e
  | Ok v5 => Py.getitem v5 (KStr "url")
  end end end end end.

(** The posts of a trace, in order. *)
Definition posts (t : list event) : list request :=
  omap (fun ev => match ev with Post r => Some r | _ => None end) t.

(** The height of a block of lines: the sum of the heights [getbbox]
    gives for them. *)
Definition lines_height (fnt : font) (lines : list string) : Z :=
  fold_right (fun line acc => bbox_height (getbbox fnt line) + acc) 0 lines.

(** What the loop over the images of a page does to the page: the number
    and the images stay, and one insertion per image is added, in the order
    of the images, each at the box of its image and with
    [keep_proportion=True]. *)
Definition page_rewritten (pg pg' : page) : Prop :=
  number pg' = number pg
  /\ images pg' = images pg
  /\ exists ins,
      inserted pg' = inserted pg ++ ins
      /\ map at_bbox ins = map image_bbox (images pg)
      /\ Forall (fun x => keep_proportion x = true) ins.

(** A computation that posts nothing, however it ends. *)
Definition quiet {A} (m : M A) : Prop :=
  forall w, posts (trace (snd (m w))) = posts (trace w).

(** ** A laboratory implementation of the libraries

    Images are the terms built by the operations applied to them, so the
    history of an image can be read off; the encoding of an image is its
    bytes followed by one byte per operation, and [b64encode] shows bytes
    as the string of the same characters.  The snapshot save fails,
    leaving the files as they are, when [snapshot_fails]; every request
    gets [reply]. *)
Module Lab.

Inductive image : Type :=
| Decoded (data : bytes)
| Blurred (radius : Z) (im : image)
| Embossed (im : image)
| Converted (mode : string) (im : image)
| Drawn (xy : Z * Z) (line : string) (fill : string) (im : image).

Fixpoint encode (im : image) : bytes :=
  match im with
  | Decoded data => data
  | Blurred _ im => encode im ++ [Byte.x01]
  | Embossed im => encode im ++ [Byte.x02]
  | Converted _ im => encode im ++ [Byte.x03]
  | Drawn _ _ _ im => encode im ++ [Byte.x04]
  end.

(** A font in which every character is [px] wide and high. *)
Definition char_font (px : Z) : font :=
  {| getbbox := fun s => (0, 0, px * Z.of_nat (String.length s), px) |}.

Definition env (snapshot_fails : bool) (reply : result response) : Env :=
  {| pil_image := image;
     Image_open := fun data => Ok (Decoded data);
     GaussianBlur := Blurred;
     EMBOSS := Embossed;
     convert := Converted;
     width := fun _ => 200;
     draw_text := fun im xy line _ fill => Drawn xy line fill im;
     jpeg := encode;
     save_error := fun _ path fs =>
       if snapshot_fails && String.eqb path orig_tmp_path
       then Some (LibraryError "cannot write", fs)
       else None;
     truetype := fun _ size => Ok (char_font size);
     b64encode := string_of_list_byte;
     requests_post := fun _ => reply;
     fitz_parse := fun _ => Ok [];
     fitz_write := fun _ => [];
     remove_error := fun _ _ => None;
     insert_error := fun _ => None;
     fitz_save_error := fun _ _ _ _ => None;
     jpeg_inserts := fun _ => eq_refl |}.

Definition args : Args :=
  {| pdf_file := "in.pdf";
     verbose := false;
     output_file := "output.pdf";
     blur := 0;
     gray := false;
     black := false;
     emboss := false;
     describe := false;
     openai_key := "";
     description_prompt :=
       "Describe the image in less than 20 words. Include the number of people and objects.";
     max_openai_tokens := 300;
     font_size := 18 |}.

Definition with_filters (b : Z) (e g k : bool) (a : Args) : Args :=
  {| pdf_file := pdf_file a; verbose := verbose a;
     output_file := output_file a;
     blur := b; gray := g; black := k; emboss := e;
     describe := describe a; openai_key := openai_key a;
     description_prompt := description_prompt a;
     max_openai_tokens := max_openai_tokens a;
     font_size := font_size a |}.

Definition with_describe (key : string) (a : Args) : Args :=
  {| pdf_file := pdf_file a; verbose := verbose a;
     output_file := output_file a;
     blur := blur a; gray := gray a; black := black a; emboss := emboss a;
     describe := true; openai_key := key;
     description_prompt := description_prompt a;
     max_openai_tokens := max_openai_tokens a;
     font_size := font_size a |}.

Definition empty_world : world := {| files := ∅; trace := [] |}.

(** A response whose body carries a description. *)
Definition described (status : Z) (text : string) : response :=
  {| status_code := status;
     json :=
       Ok (PyDict
             [("choices",
               PyList
                 [PyDict
                    [("message", PyDict [("content", PyStr text)])]])]) |}.

(** The libraries when the snapshot cannot be saved, and a world in which
    a file is already at the snapshot's path. *)
Definition broken_snapshot : Env := env true (Ok (described 200 "a cat")).

Definition stale : bytes := [Byte.x53; Byte.x54].

Definition stale_world : world :=
  {| files := {[ orig_tmp_path := stale ]}; trace := [] |}.

(** The libraries when the service answers with an error status. *)
Definition error_status (body : result pyval) : Env :=
  env false (Ok {| status_code := 503; json := body |}).

Definition photo : pdf_image :=
  {| xref := 7; image_data := [Byte.x50; Byte.x48]; image_bbox := (0, 0, 100, 50) |}.

Definition page1 : page :=
  {| number := 0; images := [photo]; inserted := [] |}.

(** The libraries with a given behaviour of [save] and of
    [ImageFont.truetype]. *)
Definition env_with
    (save : image -> string -> gmap string bytes
            -> option (exn * gmap string bytes))
    (fnt : result font) (reply : result response) : Env :=
  {| pil_image := image;
     Image_open := fun data => Ok (Decoded data);
     GaussianBlur := Blurred;
     EMBOSS := Embossed;
     convert := Converted;
     width := fun _ => 200;
     draw_text := fun im xy line _ fill => Drawn xy line fill im;
     jpeg := encode;
     save_error := save;
     truetype := fun _ _ => fnt;
     b64encode := string_of_list_byte;
     requests_post := fun _ => reply;
     fitz_parse := fun _ => Ok [page1];
     fitz_write := fun doc => List.concat (map (fun pg => List.concat (map inserted_file (inserted pg))) doc);
     remove_error := fun _ _ => None;
     insert_error := fun _ => None;
     fitz_save_error := fun _ _ _ _ => None;
     jpeg_inserts := fun _ => eq_refl |}.

(** The libraries when no save works and the files stay as they are. *)
Definition no_save : Env :=
  env_with (fun _ _ fs => Some (LibraryError "cannot write", fs))
    (Ok (char_font 18)) (Ok (described 200 "a cat")).


(** The libraries when everything works. *)
Definition working : Env :=
  env_with (fun _ _ _ => None) (Ok (char_font 18))
    (Ok (described 200 "a cat")).

(** A world that holds a document and a leftover [tmp.jpg]. *)
Definition world_with_pdf : world :=
  {| files := {[ "in.pdf" := [Byte.x25]; tmp_image_path := stale ]};
     trace := [] |}.

(** The libraries of [E] with another outcome of [fitz.open]. *)
Definition with_document (E : Env) (parse : bytes -> result document) : Env :=
  {| pil_image := @pil_image E;
     Image_open := @Image_open E;
     GaussianBlur := @GaussianBlur E;
     EMBOSS := @EMBOSS E;
     convert := @convert E;
     width := @width E;
     draw_text := @draw_text E;
     jpeg := @jpeg E;
     save_error := @save_error E;
     truetype := @truetype E;
     b64encode := @b64encode E;
     requests_post := @requests_post E;
     fitz_parse := parse;
     fitz_write := @fitz_write E;
     remove_error := @remove_error E;
     insert_error := @insert_error E;
     fitz_save_error := @fitz_save_error E;
     jpeg_inserts := @jpeg_inserts E |}.

(** The libraries of [E] with another behaviour of [os.remove]. *)
Definition with_remove (E : Env)
    (remove : string -> gmap string bytes -> option exn) : Env :=
  {| pil_image := @pil_image E;
     Image_open := @Image_open E;
     GaussianBlur := @GaussianBlur E;
     EMBOSS := @EMBOSS E;
     convert := @convert E;
     width := @width E;
     draw_text := @draw_text E;
     jpeg := @jpeg E;
     save_error := @save_error E;
     truetype := @truetype E;
     b64encode := @b64encode E;
     requests_post := @requests_post E;
     fitz_parse := @fitz_parse E;
     fitz_write := @fitz_write E;
     remove_error := remove;
     insert_error := @insert_error E;
     fitz_save_error := @fitz_save_error E;
     jpeg_inserts := @jpeg_inserts E |}.

(** The libraries when the file at the snapshot's path can neither be
    written nor removed. *)
Definition locked_snapshot : Env :=
  with_remove broken_snapshot
    (fun path _ =>
       if String.eqb path orig_tmp_path
       then Some (LibraryError "PermissionError") else None).

(** A world in which [tmp.jpg] holds the file of an image inserted
    before. *)
Definition world_with_old_tmp : world :=
  {| files := {[ tmp_image_path := encode (Embossed (Decoded [Byte.x4f])) ]};
     trace := [] |}.

(** A page without images. *)
Definition text_page : page :=
  {| number := 0; images := []; inserted := [] |}.

End Lab.

(** * Properties *)

#[local] Arguments String.append !s1 s2 : simpl nomatch.

(** ** Facts about split, strip, join and words *)

Section StringFacts.

Import PyStr.

Lemma append_empty_r (s : string) : s +:+ "" = s.
Proof. induction s as [|c s IH]; simpl; [done | by rewrite IH]. Qed.

Lemma append_assoc (a b c : string) : (a +:+ b) +:+ c = a +:+ (b +:+ c).
Proof. induction a as [|x a IH]; simpl; [done | by rewrite IH]. Qed.

Lemma split_not_nil sep s : split sep s <> [].
Proof.
  destruct s as [|c s]; simpl; [done |].
  destruct (Ascii.eqb c sep); [done |].
  destruct (split sep s); done.
Qed.

Lemma join_cons w ws :
  ws <> [] -> join (w :: ws) = w +:+ String space (join ws).
Proof. destruct ws; [done | reflexivity]. Qed.

(** [' '.join(s.split(' ')) == s] *)
Lemma join_split s : join (split space s) = s.
Proof.
  induction s as [|c s IH]; [reflexivity |].
  simpl split. destruct (Ascii.eqb_spec c space) as [-> | Hc].
  - rewrite join_cons by apply split_not_nil. simpl. by rewrite IH.
  - pose proof (split_not_nil space s) as Hne.
    destruct (split space s) as [|w ws]; [done |].
    destruct ws as [|w' ws].
    + simpl in *. by rewrite IH.
    + change (join (String c w :: w' :: ws))
        with (String c (join (w :: w' :: ws))).
      by rewrite IH.
Qed.

Lemma words_starts s : starts_word s = true -> words s <> [].
Proof.
  destruct s as [|c s]; simpl; [done |].
  intros Hc. apply negb_true_iff in Hc. rewrite Hc.
  destruct (starts_word s); [destruct (words s) |]; done.
Qed.

Lemma starts_word_append u v :
  u <> "" -> starts_word (u +:+ v) = starts_word u.
Proof. destruct u; [done | reflexivity]. Qed.

(** A white space character between two texts separates their words. *)
Lemma words_append_space u c v :
  isspace c = true -> words (u +:+ String c v) = words u ++ words v.
Proof.
  intros Hc. induction u as [|d u IH].
  - simpl. by rewrite Hc.
  - simpl. destruct (isspace d); [exact IH |].
    destruct u as [|e u].
    + simpl. by rewrite Hc.
    + rewrite starts_word_append by done.
      destruct (starts_word (String e u)) eqn:Hs.
      * rewrite IH. pose proof (words_starts _ Hs) as Hne.
        destruct (words (String e u)); [done | reflexivity].
      * by rewrite IH.
Qed.

Lemma words_lstrip s : words (lstrip s) = words s.
Proof.
  induction s as [|c s IH]; [done |].
  simpl. destruct (isspace c) eqn:Hc; [exact IH |]. simpl. by rewrite Hc.
Qed.

Lemma starts_word_rstrip s : starts_word (rstrip s) = starts_word s.
Proof.
  destruct s as [|c s]; [done |]. simpl.
  destruct (isspace c) eqn:Hc; simpl.
  - destruct (is_empty (rstrip s)); simpl; [done | by rewrite Hc].
  - by rewrite Hc.
Qed.

Lemma is_empty_true s : is_empty s = true -> s = "".
Proof. by destruct s. Qed.

Lemma words_rstrip s : words (rstrip s) = words s.
Proof.
  induction s as [|c s IH]; [done |].
  simpl. destruct (isspace c) eqn:Hc; simpl.
  - destruct (is_empty (rstrip s)) eqn:He; simpl.
    + apply is_empty_true in He. by rewrite <- IH, He.
    + by rewrite Hc.
  - rewrite Hc, starts_word_rstrip, IH. done.
Qed.

(** Stripping a text keeps its words. *)
Lemma words_strip s : words (strip s) = words s.
Proof. unfold strip. by rewrite words_rstrip, words_lstrip. Qed.

Lemma rstrip_append_space s : rstrip (s +:+ " ") = rstrip s.
Proof.
  induction s as [|c s IH]; [reflexivity |].
  simpl. by rewrite IH.
Qed.

Lemma lstrip_append_space s :
  lstrip (s +:+ " ") = lstrip s +:+ " "
  \/ (lstrip (s +:+ " ") = "" /\ lstrip s = "").
Proof.
  induction s as [|c s IH]; [right; done |].
  simpl. destruct (isspace c); [exact IH | by left].
Qed.

(** The space [text_wrap] appends to a word is stripped again. *)
Lemma strip_append_space s : strip (s +:+ " ") = strip s.
Proof.
  unfold strip. destruct (lstrip_append_space s) as [-> | [-> ->]]; [|done].
  apply rstrip_append_space.
Qed.

Lemma words_join ws : ws <> [] -> words (join ws) = concat (map words ws).
Proof.
  induction ws as [|w ws IH]; [done |]. intros _.
  destruct ws as [|w' ws]; [simpl; by rewrite app_nil_r |].
  rewrite join_cons by done. rewrite words_append_space by done.
  rewrite IH by done. reflexivity.
Qed.

(** Splitting at spaces first does not change the words of a text. *)
Lemma words_split s : concat (map words (split space s)) = words s.
Proof.
  rewrite <- words_join by apply split_not_nil. by rewrite join_split.
Qed.

(** For a text whose only white space is the space character, the words
    are the pieces of [text.split(' ')] that are not empty. *)
Lemma split_head_empty s :
  (forall c, In c (list_ascii_of_string s) -> isspace c = true -> c = space) ->
  match split space s with
  | [] => False
  | w :: _ => is_empty w = negb (starts_word s)
  end.
Proof.
  intros Hs. destruct s as [|c s]; [reflexivity |]. simpl.
  destruct (Ascii.eqb_spec c space) as [-> | Hc]; [reflexivity |].
  assert (isspace c = false) as ->.
  { destruct (isspace c) eqn:E; [| done]. exfalso. apply Hc, Hs; [by left | done]. }
  by destruct (split space s).
Qed.

Lemma words_are_split_pieces s :
  (forall c, In c (list_ascii_of_string s) -> isspace c = true -> c = space) ->
  words s = List.filter (fun w => negb (is_empty w)) (split space s).
Proof.
  induction s as [|c s IH]; intros Hs; [reflexivity |].
  assert (Hs' : forall c', In c' (list_ascii_of_string s) ->
                           isspace c' = true -> c' = space)
    by (intros c' Hin; apply Hs; by right).
  specialize (IH Hs'). pose proof (split_head_empty s Hs') as Hhead.
  simpl. destruct (Ascii.eqb_spec c space) as [-> | Hc]; [exact IH |].
  assert (isspace c = false) as ->.
  { destruct (isspace c) eqn:E; [| done]. exfalso. apply Hc, Hs; [by left | done]. }
  destruct (split space s) as [|w ws]; [done |]. simpl in IH |- *.
  rewrite IH, Hhead.
  destruct (starts_word s); simpl; [reflexivity |].
  simpl in Hhead. apply is_empty_true in Hhead. by rewrite Hhead.
Qed.

End StringFacts.

(** ** text_wrap *)

Section TextWrap.

Import PyStr.

Lemma spaced_join ws : ws <> [] -> spaced ws = join ws +:+ " ".
Proof.
  induction ws as [|w ws IH]; [done |]. intros _.
  destruct ws as [|w' ws]; [reflexivity |].
  rewrite join_cons by done.
  change (spaced (w :: w' :: ws)) with (w +:+ " " +:+ spaced (w' :: ws)).
  rewrite IH by done. rewrite append_assoc. reflexivity.
Qed.

(** When the whole text is wider than [max_width], every iteration
    flushes the line: each word ends up on a line of its own. *)
Lemma wrap_loop_wide text f mw ws lines line :
  rendered_width f text > mw ->
  (let '(ls, l) := wrap_loop text f mw ws lines line in ls ++ [strip l])
  = lines ++ strip line :: map strip ws.
Proof.
  intros Hw. revert lines line.
  induction ws as [|w ws IH]; intros lines line; [reflexivity |].
  simpl wrap_loop. unfold rendered_width in Hw.
  destruct (Z.gtb_spec (bbox_width (getbbox f text)) mw) as [_ | Hle]; [| lia].
  rewrite IH, strip_append_space, <- app_assoc. reflexivity.
Qed.

(** When the whole text fits, no iteration flushes. *)
Lemma wrap_loop_narrow text f mw ws lines line :
  rendered_width f text <= mw ->
  wrap_loop text f mw ws lines line = (lines, line +:+ spaced ws).
Proof.
  intros Hw. revert line.
  induction ws as [|w ws IH]; intros line; simpl wrap_loop.
  - by rewrite append_empty_r.
  - unfold rendered_width in Hw.
    destruct (Z.gtb_spec (bbox_width (getbbox f text)) mw) as [Hgt | _];
      [lia |].
    rewrite IH. simpl spaced. by rewrite !append_assoc.
Qed.

Lemma text_wrap_wide s f mw w :
  rendered_width f s > mw ->
  text_wrap (PyStr s) (Some f) (Some mw) w
  = (Ok ("" :: map strip (split space s)), w).
Proof.
  intros Hw. unfold text_wrap.
  pose proof (wrap_loop_wide s f mw (split space s) [] "" Hw) as H.
  destruct (wrap_loop s f mw (split space s) [] "") as [ls l].
  unfold ret. by rewrite H.
Qed.

Lemma text_wrap_narrow s f mw w :
  rendered_width f s <= mw ->
  text_wrap (PyStr s) (Some f) (Some mw) w = (Ok [strip s], w).
Proof.
  intros Hw. unfold text_wrap.
  rewrite wrap_loop_narrow by done.
  rewrite spaced_join by apply split_not_nil.
  rewrite join_split. simpl. by rewrite strip_append_space.
Qed.

Lemma text_wrap_none text f mw w :
  text = PyNone \/ f = None \/ mw = None ->
  text_wrap text f mw w = (Ok [], log w [Print (WrapMissing text mw)]).
Proof.
  intros [-> | [-> | ->]]; [reflexivity | |].
  - by destruct text.
  - by destruct text, f.
Qed.

End TextWrap.

(** ** The claims about text_wrap *)

(** C7: when [text], [font] or [max_width] is [None], [text_wrap] prints
    its diagnostic and returns the empty list; it does not raise, whatever
    the other two arguments are. *)
Theorem text_wrap_missing_input text f mw w :
  text = PyNone \/ f = None \/ mw = None ->
  text_wrap text f mw w = (Ok [], log w [Print (WrapMissing text mw)]).
Proof. apply text_wrap_none. Qed.

Lemma text_wrap_missing_input_witness :
  (PyInt 5 = PyNone \/ @None font = None \/ Some 200 = None)
  /\ text_wrap (PyInt 5) None (Some 200) Lab.empty_world
     = (Ok [], log Lab.empty_world [Print (WrapMissing (PyInt 5) (Some 200))]).
Proof.
  split; [right; left; reflexivity |].
  apply (text_wrap_missing_input (PyInt 5) None (Some 200) Lab.empty_world).
  right; left; reflexivity.
Defined.

(** C1, as stated, fails: with characters 10 wide and [max_width] 100,
    the text "two photographers" is wrapped into an empty line, "two" and
    "photographers", and the last line is 130 wide. *)
Lemma text_wrap_overlong_word :
  text_wrap (PyStr "two photographers") (Some (Lab.char_font 10)) (Some 100)
    Lab.empty_world
  = (Ok [""; "two"; "photographers"], Lab.empty_world)
  /\ rendered_width (Lab.char_font 10) "photographers" = 130
  /\ ~ Forall (fun line => rendered_width (Lab.char_font 10) line <= 100)
        [""; "two"; "photographers"].
Proof.
  split; [reflexivity |]. split; [reflexivity |].
  intros H. inversion H as [|? ? _ H1]; subst.
  inversion H1 as [|? ? _ H2]; subst.
  inversion H2 as [|? ? H3 _]; subst.
  vm_compute in H3. by apply H3.
Qed.

(** C1, amended: [text_wrap] returns, and every line it returns is at most
    [max_width] wide, provided that no word of the text (a piece between
    two spaces, stripped) is wider than [max_width], that the empty string
    is not wider than [max_width], and that stripping the text does not
    make it wider.  A word is never split. *)
Theorem text_wrap_lines_fit s f mw w :
  rendered_width f (PyStr.strip s) <= rendered_width f s ->
  rendered_width f "" <= mw ->
  Forall (fun word => rendered_width f (PyStr.strip word) <= mw)
    (PyStr.split PyStr.space s) ->
  exists lines,
    text_wrap (PyStr s) (Some f) (Some mw) w = (Ok lines, w)
    /\ Forall (fun line => rendered_width f line <= mw) lines.
Proof.
  intros Hstrip Hempty Hwords.
  destruct (Z.le_gt_cases (rendered_width f s) mw) as [Hle | Hgt].
  - exists [PyStr.strip s]. split; [by apply text_wrap_narrow |].
    constructor; [lia | constructor].
  - exists ("" :: map PyStr.strip (PyStr.split PyStr.space s)).
    split; [apply text_wrap_wide; lia |].
    constructor; [exact Hempty |].
    apply Forall_map. exact Hwords.
Qed.

Lemma text_wrap_lines_fit_witness :
  exists lines,
    text_wrap (PyStr "two dogs") (Some (Lab.char_font 10)) (Some 50)
      Lab.empty_world
    = (Ok lines, Lab.empty_world)
    /\ Forall (fun line => rendered_width (Lab.char_font 10) line <= 50) lines.
Proof.
  apply (text_wrap_lines_fit "two dogs" (Lab.char_font 10) 50 Lab.empty_world).
  - vm_compute. discriminate.
  - vm_compute. discriminate.
  - repeat constructor; vm_compute; discriminate.
Defined.

(** C8: [text_wrap] returns, and the words of the lines it returns, taken
    in order, are the words of the text (the runs of characters that are
    not white space). *)
Theorem text_wrap_keeps_words s f mw w :
  exists lines,
    text_wrap (PyStr s) (Some f) (Some mw) w = (Ok lines, w)
    /\ concat (map PyStr.words lines) = PyStr.words s.
Proof.
  destruct (Z.le_gt_cases (rendered_width f s) mw) as [Hle | Hgt].
  - exists [PyStr.strip s]. split; [by apply text_wrap_narrow |].
    simpl. by rewrite app_nil_r, words_strip.
  - exists ("" :: map PyStr.strip (PyStr.split PyStr.space s)).
    split; [apply text_wrap_wide; lia |].
    simpl. rewrite <- (words_split s).
    f_equal. rewrite map_map. apply map_ext. intros word. apply words_strip.
Qed.

(** ** Running the script: one equation per construct *)

Lemma log_nil w : log w [] = w.
Proof. destruct w as [fs t]. unfold log. simpl. by rewrite app_nil_r. Qed.

Lemma run_bind {A B} (m : M A) (k : A -> M B) w a w' :
  m w = (Ok a, w') -> bind m k w = k a w'.
Proof. intros H. unfold bind. by rewrite H. Qed.

Lemma bind_ok_inv {A B} (m : M A) (k : A -> M B) w b w' :
  bind m k w = (Ok b, w') ->
  exists a w1, m w = (Ok a, w1) /\ k a w1 = (Ok b, w').
Proof.
  unfold bind. destruct (m w) as [[a | e] w1]; [eauto | discriminate].
Qed.

Lemma run_when_print c m w :
  when c (print m) w = (Ok tt, log w (if c then [Print m] else [])).
Proof. destruct c; [reflexivity |]. unfold when, ret. by rewrite log_nil. Qed.


Ltac tidy := unfold log; simpl; rewrite <- ?app_assoc; simpl; reflexivity.

Section Running.

Context {E : Env}.

(** [if os.path.exists(path): os.remove(path)]: nothing happens when no
    file is at [path]; otherwise the file is removed, or [os.remove]
    raises and the rest is not run. *)
Lemma run_cleanup_gen {A} path (k : M A) w :
  (let* found := path_exists path in when found (os_remove path);;; k) w
  = match files w !! path with
    | None => k w
    | Some _ =>
        match remove_error path (files w) with
        | Some e => (Raise e, w)
        | None => k (without_file path w)
        end
    end.
Proof.
  unfold bind, path_exists, when, os_remove, ret, without_file.
  destruct (files w !! path) as [content |] eqn:Hf.
  - rewrite bool_decide_eq_true_2 by eauto. rewrite Hf.
    by destruct (remove_error path (files w)).
  - by rewrite bool_decide_eq_false_2 by (intros [? ?]; done).
Qed.

Lemma run_cleanup {A} path (k : M A) w :
  files w !! path = None \/ remove_error path (files w) = None ->
  (let* found := path_exists path in when found (os_remove path);;; k) w
  = k (without_file path w).
Proof.
  intros H. rewrite run_cleanup_gen.
  destruct (files w !! path) as [content |] eqn:Hf.
  - destruct H as [? | ->]; done.
  - unfold without_file. rewrite delete_id by done. by destruct w.
Qed.

(** A save inside [try]/[except] never raises. *)
Lemma run_try_save pil path on_error w :
  try_except (pil_save pil path) (fun e => print (on_error e)) w
  = (Ok tt, save_attempt pil path on_error w).
Proof.
  unfold try_except, pil_save, save_attempt, saved_files, print, emit.
  destruct (save_error pil path (files w)) as [[e fs] |]; simpl;
    [reflexivity | by rewrite app_nil_r].
Qed.

Lemma run_description_missing path prompt model key max_tokens is_verbose w :
  files w !! path = None ->
  get_image_description path prompt model key max_tokens is_verbose w
  = (Ok PyNone, log w [Print (PathMissing path)]).
Proof.
  intros Hf. unfold get_image_description, bind, path_exists.
  rewrite Hf, bool_decide_eq_false_2 by (intros [? ?]; done). reflexivity.
Qed.

Lemma run_description_found path prompt model key max_tokens is_verbose
    content w :
  files w !! path = Some content ->
  get_image_description path prompt model key max_tokens is_verbose w
  = described_as prompt model key max_tokens is_verbose content w.
Proof.
  intros Hf. unfold get_image_description, described_as.
  unfold bind, ret, when, print, emit, lift, try_except, path_exists,
    read_file, post.
  rewrite Hf, bool_decide_eq_true_2 by eauto. cbn [negb files trace].
  rewrite Hf.
  destruct (requests_post _) as [resp | e]; [simpl | tidy].
  destruct (json resp) as [v | e]; [simpl | tidy].
  destruct is_verbose; destruct (content_of v) as [d | e]; tidy.
Qed.

(** Once the file is read, [get_image_description] returns: every
    exception is caught. *)
Lemma described_as_returns prompt model key max_tokens is_verbose content w :
  exists d evs,
    described_as prompt model key max_tokens is_verbose content w
    = (Ok d, log w evs).
Proof.
  unfold described_as.
  destruct (requests_post _) as [resp | e]; [| eauto].
  destruct (json resp) as [v | e]; [| eauto].
  destruct (content_of v); eauto.
Qed.

(** A response that is not JSON, or lacks the field, gives [''],
    whatever its status code. *)
Lemma described_as_bad_response prompt model key max_tokens is_verbose
    content w resp :
  requests_post
    (description_request (b64encode content) prompt model key max_tokens)
  = Ok resp ->
  is_raise (json resp) = true
  \/ (exists v, json resp = Ok v /\ is_raise (content_of v) = true) ->
  exists evs,
    described_as prompt model key max_tokens is_verbose content w
    = (Ok (PyStr ""), log w evs).
Proof.
  intros Hpost Hbad. unfold described_as. rewrite Hpost.
  destruct Hbad as [Hjson | (v & Hjson & Hfield)].
  - destruct (json resp); [done | eauto].
  - rewrite Hjson. destruct (content_of v); [done | eauto].
Qed.

Lemma described_as_files prompt model key max_tokens is_verbose content w :
  files (snd (described_as prompt model key max_tokens is_verbose content w))
  = files w.
Proof.
  destruct (described_as_returns prompt model key max_tokens is_verbose
              content w) as (d & evs & ->). reflexivity.
Qed.

(** [describe_image], step by step: it raises only when [os.remove] of
    the snapshot raises. *)
Lemma run_describe_image_gen args n i pil w :
  describe_image args n i pil w
  = let w1 := after_snapshot args n i pil w in
    match files w1 !! orig_tmp_path with
    | None => (Ok PyNone, log w1 [Print (PathMissing orig_tmp_path)])
    | Some content =>
        let '(r, w2) :=
          described_as (description_prompt args) "gpt-4-vision-preview"
            (openai_key args) (max_openai_tokens args) (verbose args)
            content w1 in
        match remove_error orig_tmp_path (files w1) with
        | Some e => (Raise e, w2)
        | None => (r, without_file orig_tmp_path w2)
        end
    end.
Proof.
  unfold describe_image.
  erewrite run_bind by apply run_when_print.
  erewrite run_bind by apply run_try_save.
  fold (after_snapshot args n i pil w).
  set (w1 := after_snapshot args n i pil w).
  destruct (files w1 !! orig_tmp_path) as [content |] eqn:Hf; cbv zeta.
  - destruct (described_as_returns (description_prompt args)
                "gpt-4-vision-preview" (openai_key args)
                (max_openai_tokens args) (verbose args) content w1)
      as (d & evs & Hd).
    erewrite run_bind
      by (rewrite (run_description_found _ _ _ _ _ _ content) by exact Hf;
          exact Hd).
    rewrite run_cleanup_gen, Hd. cbn [files log]. rewrite Hf.
    by destruct (remove_error orig_tmp_path (files w1)).
  - erewrite run_bind by (by apply run_description_missing).
    rewrite run_cleanup_gen. cbn [files log]. by rewrite Hf.
Qed.

(** When [os.remove] of the snapshot works, [describe_image] returns and
    the snapshot is gone afterwards. *)
Lemma run_describe_image args n i pil w :
  (forall fs, remove_error orig_tmp_path fs = None) ->
  describe_image args n i pil w
  = let w1 := after_snapshot args n i pil w in
    match files w1 !! orig_tmp_path with
    | None => (Ok PyNone, log w1 [Print (PathMissing orig_tmp_path)])
    | Some content =>
        let '(r, w2) :=
          described_as (description_prompt args) "gpt-4-vision-preview"
            (openai_key args) (max_openai_tokens args) (verbose args)
            content w1 in
        (r, without_file orig_tmp_path w2)
    end.
Proof.
  intros Hrm. rewrite run_describe_image_gen. cbv zeta.
  destruct (files _ !! orig_tmp_path); [| reflexivity].
  by rewrite Hrm.
Qed.

(** [describe_image] returns a text when the service does not answer
    with a content of another type, and [None] or [''] when the captioning
    path fails. *)
Lemma describe_image_text args n i pil w :
  (forall fs, remove_error orig_tmp_path fs = None) ->
  caption_is_text args pil (files w) = true ->
  exists d w1,
    describe_image args n i pil w = (Ok d, w1)
    /\ is_text d = true
    /\ (caption_fails args pil (files w) = true ->
        d = PyNone \/ d = PyStr "").
Proof.
  intros Hrm Htext. rewrite run_describe_image by exact Hrm. cbv zeta.
  unfold caption_is_text, caption_fails, snapshot_files in *.
  change (files (after_snapshot args n i pil w))
    with (saved_files pil orig_tmp_path (files w)).
  destruct (saved_files pil orig_tmp_path (files w) !! orig_tmp_path)
    as [content |]; [| by eauto 6].
  unfold described_as. fold (request_for args content).
  destruct (requests_post (request_for args content)) as [resp | e];
    [| by eauto 6].
  destruct (json resp) as [v | e]; [| by eauto 6].
  destruct (content_of v) as [d | e]; [| by eauto 6].
  eexists _, _. split; [reflexivity |]. split; [exact Htext | done].
Qed.

Lemma caption_fails_is_text args pil fs :
  caption_fails args pil fs = true -> caption_is_text args pil fs = true.
Proof.
  unfold caption_fails, caption_is_text.
  destruct (snapshot_files pil fs !! orig_tmp_path) as [content |]; [| done].
  destruct (requests_post (request_for args content)) as [resp | e];
    [| done].
  destruct (json resp) as [v | e]; [| done].
  by destruct (content_of v).
Qed.

(** The four stages apply the enabled filters in the fixed order. *)
Lemma run_apply_filters args n i pil w :
  apply_filters args n i pil w
  = (Ok (run_filters args (enabled_filters args) pil),
     log w (if verbose args
            then map (filter_message n i) (enabled_filters args)
            else [])).
Proof.
  unfold apply_filters, blur_stage, emboss_stage, gray_stage, black_stage,
    enabled_filters, run_filters, filter_order, bind, ret, when, print, emit.
  simpl. destruct w as [fs t].
  destruct (blur args >? 0), (emboss args), (gray args), (black args),
    (verbose args); unfold log; simpl; rewrite <- ?app_assoc, ?app_nil_r;
    reflexivity.
Qed.

End Running.

(** ** One image through the pipeline *)

Lemma seq_get_nth {A} (l : list A) (i : nat) (x : A) :
  nth_error l i = Some x -> Py.seq_get l (Z.of_nat i) = Ok x.
Proof.
  intros H. unfold Py.seq_get.
  assert (i < length l)%nat as Hlt by (apply nth_error_Some; congruence).
  destruct (Z.ltb_spec (Z.of_nat i) 0) as [? | _]; [lia |].
  destruct (Z.ltb_spec (Z.of_nat i) 0) as [? | _]; [lia |].
  destruct (Z.leb_spec (Z.of_nat (length l)) (Z.of_nat i)) as [? | _];
    [lia |].
  simpl. by rewrite Nat2Z.id, H.
Qed.

(** The box [get_image_info] reports at the index of an image of the page
    is the box of that image, also after insertions. *)
Lemma image_info_nth pg i img :
  nth_error (images pg) i = Some img ->
  Py.seq_get (get_image_info pg) (Z.of_nat i) = Ok (image_bbox img).
Proof.
  intros H. apply seq_get_nth. unfold get_image_info.
  rewrite nth_error_app1
    by (rewrite length_map; apply nth_error_Some; congruence).
  by apply map_nth_error.
Qed.

Section Pipeline.

Context {E : Env}.

(** The overlay of a text returns; with no description, or an empty one,
    it draws no text. *)
Lemma overlay_text args d pil w fnt :
  truetype "arial.ttf" (font_size args) = Ok fnt ->
  is_text d = true ->
  exists lines w',
    overlay args d pil w = (Ok (draw_lines fnt lines 10 pil), w')
    /\ (d = PyNone \/ d = PyStr "" -> Forall (fun line => line = "") lines).
Proof.
  intros Hfont Hd. unfold overlay.
  erewrite run_bind by (unfold lift; rewrite Hfont; reflexivity).
  destruct d as [| | | s | |]; try discriminate Hd.
  - exists [], (log w [Print (WrapMissing PyNone (Some (width pil)))]).
    split; [| constructor].
    erewrite run_bind by (apply text_wrap_none; by left). reflexivity.
  - destruct (Z.le_gt_cases (rendered_width fnt s) (width pil)) as [? | ?].
    + exists [PyStr.strip s], w. split.
      * erewrite run_bind by (by apply text_wrap_narrow). reflexivity.
      * intros [? | [= ->]]; [done | by repeat constructor].
    + exists ("" :: map PyStr.strip (PyStr.split PyStr.space s)), w. split.
      * erewrite run_bind by (apply text_wrap_wide; lia). reflexivity.
      * intros [? | [= ->]]; [done | by repeat constructor].
Qed.

(** [insert_image] raises when the file is missing or is not an image. *)
Lemma run_insert_image pg bbox path keep w :
  insert_image pg bbox path keep w
  = match files w !! path with
    | None => (Raise FileNotFoundError, w)
    | Some content =>
        match insert_error content with
        | Some e => (Raise e, w)
        | None =>
            (Ok {| number := number pg;
                   images := images pg;
                   inserted := inserted pg
                               ++ [{| at_bbox := bbox;
                                      inserted_file := content;
                                      keep_proportion := keep |}] |}, w)
        end
    end.
Proof.
  unfold insert_image, bind, read_file, ret, raise.
  destruct (files w !! path) as [content |]; [| reflexivity].
  by destruct (insert_error content).
Qed.

(** The last steps of the loop body: when the save to [tmp.jpg] succeeds,
    the image is inserted at the box of the image it replaces. *)
Lemma run_reinsert pg i img pil w :
  nth_error (images pg) i = Some img ->
  save_error pil tmp_image_path (files w) = None ->
  (try_except (pil_save pil tmp_image_path) (fun e => print (Printed e));;;
   let* bbox := lift (Py.seq_get (get_image_info pg) (Z.of_nat i)) in
   insert_image pg bbox tmp_image_path true) w
  = (Ok (reinserted pg (image_bbox img) (jpeg pil)),
     save_attempt pil tmp_image_path Printed w).
Proof.
  intros Hnth Hsave.
  erewrite run_bind by apply run_try_save.
  erewrite run_bind
    by (unfold lift; rewrite (image_info_nth pg i img) by exact Hnth;
        reflexivity).
  rewrite run_insert_image. unfold save_attempt, saved_files.
  cbn [files]. rewrite Hsave, lookup_insert_eq, jpeg_inserts. reflexivity.
Qed.

(** The loop body without [--describe], step by step: the filters, the
    save to [tmp.jpg] inside [try], and the insertion of whatever
    [tmp.jpg] then holds. *)
Lemma run_process_image_plain args pg i img pil w :
  describe args = false ->
  nth_error (images pg) i = Some img ->
  Image_open (image_data img) = Ok pil ->
  process_image args pg i img w
  = let w2 :=
      save_attempt (run_filters args (enabled_filters args) pil)
        tmp_image_path Printed
        (log w (if verbose args
                then map (filter_message (number pg) i)
                       (enabled_filters args)
                else [])) in
    match files w2 !! tmp_image_path with
    | Some content =>
        match insert_error content with
        | Some e => (Raise e, w2)
        | None => (Ok (reinserted pg (image_bbox img) content), w2)
        end
    | None => (Raise FileNotFoundError, w2)
    end.
Proof.
  intros Hdescribe Hnth Hopen. unfold process_image. rewrite Hdescribe.
  erewrite run_bind by (unfold lift; rewrite Hopen; reflexivity).
  erewrite run_bind by reflexivity.
  erewrite run_bind by apply run_apply_filters.
  erewrite run_bind by reflexivity.
  erewrite run_bind by apply run_try_save.
  erewrite run_bind
    by (unfold lift; rewrite (image_info_nth pg i img) by exact Hnth;
        reflexivity).
  cbv zeta. rewrite run_insert_image. reflexivity.
Qed.


End Pipeline.

(** ** The claims about the transform chain *)



(** C6: with a blur radius of 0 the blur stage returns the image it was
    given, and does nothing else. *)
Theorem blur_stage_radius_zero `{E : Env} args n i pil w :
  blur args = 0 -> blur_stage args n i pil w = (Ok pil, w).
Proof. intros H. unfold blur_stage. by rewrite H. Qed.

Lemma blur_stage_radius_zero_witness :
  blur Lab.args = 0
  /\ @blur_stage (Lab.env false (Raise (LibraryError "offline"))) Lab.args
       0 0%nat (Lab.Decoded []) Lab.empty_world
     = (Ok (Lab.Decoded []), Lab.empty_world).
Proof.
  split; [reflexivity |].
  apply (@blur_stage_radius_zero
           (Lab.env false (Raise (LibraryError "offline")))).
  reflexivity.
Defined.

(** ** The claims about the description service *)

(** C10: when nothing is at the image path, [get_image_description]
    prints a message and returns [None], which is not the empty string. *)
Theorem get_image_description_missing_path `{E : Env}
    path prompt model key max_tokens is_verbose w :
  files w !! path = None ->
  get_image_description path prompt model key max_tokens is_verbose w
  = (Ok PyNone, log w [Print (PathMissing path)])
  /\ PyNone <> PyStr "".
Proof. intros Hf. split; [by apply run_description_missing | done]. Qed.

Lemma get_image_description_missing_path_witness :
  files Lab.empty_world !! "o_tmp.jpg" = None
  /\ @get_image_description (Lab.env false (Raise (LibraryError "offline")))
       "o_tmp.jpg" "What is this?" "gpt-4-vision-preview" "sk" 300 false
       Lab.empty_world
     = (Ok PyNone, log Lab.empty_world [Print (PathMissing "o_tmp.jpg")]).
Proof.
  split; [reflexivity |].
  apply (@get_image_description_missing_path
           (Lab.env false (Raise (LibraryError "offline")))).
  reflexivity.
Defined.

(** C5, as stated, fails: the status code is never looked at.  A response
    with status 500 whose body carries [choices[0].message.content] gives
    that content, not the empty string. *)
Lemma error_status_with_content_is_described :
  status_code (Lab.described 500 "a cat") = 500
  /\ fst (@get_image_description
            (Lab.env false (Ok (Lab.described 500 "a cat")))
            "o_tmp.jpg" "What is this?" "gpt-4-vision-preview" "sk" 300
            false Lab.stale_world)
     = Ok (PyStr "a cat")
  /\ PyStr "a cat" <> PyStr "".
Proof. split; [reflexivity |]. split; [vm_compute; reflexivity | done]. Qed.

(** C5, amended: when the image file is there and the response, whatever
    its status code, is not JSON or lacks [choices[0].message.content],
    [get_image_description] returns the empty string; it does not raise
    and leaves the files as they are. *)
Theorem get_image_description_bad_response `{E : Env}
    path prompt model key max_tokens is_verbose content w resp :
  files w !! path = Some content ->
  requests_post
    (description_request (b64encode content) prompt model key max_tokens)
  = Ok resp ->
  is_raise (json resp) = true
  \/ (exists v, json resp = Ok v /\ is_raise (content_of v) = true) ->
  exists evs,
    get_image_description path prompt model key max_tokens is_verbose w
    = (Ok (PyStr ""), log w evs).
Proof.
  intros Hf Hpost Hbad.
  rewrite (run_description_found _ _ _ _ _ _ content) by exact Hf.
  by eapply described_as_bad_response.
Qed.

Lemma get_image_description_bad_response_witness :
  exists evs,
    @get_image_description
      (Lab.error_status (Ok (PyDict [("error", PyStr "overloaded")])))
      "o_tmp.jpg" "What is this?" "gpt-4-vision-preview" "sk" 300 false
      Lab.stale_world
    = (Ok (PyStr ""), log Lab.stale_world evs).
Proof.
  apply (@get_image_description_bad_response
           (Lab.error_status (Ok (PyDict [("error", PyStr "overloaded")])))
           "o_tmp.jpg" "What is this?" "gpt-4-vision-preview" "sk" 300 false
           Lab.stale Lab.stale_world
           {| status_code := 503;
              json := Ok (PyDict [("error", PyStr "overloaded")]) |}).
  - reflexivity.
  - reflexivity.
  - right. eexists. split; reflexivity.
Defined.

(** ** The claims about the pipeline *)

(** C4: with [--describe] and no key, [extract_pdf] prints the request
    for a key and returns: the document is not opened, nothing is posted,
    and no file is created, changed or removed. *)
Theorem extract_pdf_requires_key `{E : Env} args w :
  describe args = true ->
  openai_key args = "" ->
  extract_pdf args w
  = (Ok tt,
     log w [Print (Text "Please provide an OpenAI key with the --openai-key flag.")]).
Proof. intros Hd Hk. unfold extract_pdf. rewrite Hd, Hk. reflexivity. Qed.

Lemma extract_pdf_requires_key_witness :
  describe (Lab.with_describe "" Lab.args) = true
  /\ openai_key (Lab.with_describe "" Lab.args) = ""
  /\ @extract_pdf (Lab.env false (Raise (LibraryError "offline")))
       (Lab.with_describe "" Lab.args) Lab.empty_world
     = (Ok tt,
        log Lab.empty_world
          [Print (Text "Please provide an OpenAI key with the --openai-key flag.")]).
Proof.
  split; [reflexivity |]. split; [reflexivity |].
  apply (@extract_pdf_requires_key
           (Lab.env false (Raise (LibraryError "offline")))); reflexivity.
Defined.

Lemma posts_app a b : posts (a ++ b) = posts a ++ posts b.
Proof. unfold posts. apply omap_app. Qed.

(** When the snapshot is saved, the one request [describe_image] sends
    carries the JPEG encoding of the image it was given, which
    [process_image] takes from [Image.open] before any filter runs. *)
Lemma describe_image_posts_snapshot `{E : Env} args n i pil w :
  save_error pil orig_tmp_path (files w) = None ->
  posts (trace (snd (describe_image args n i pil w)))
  = posts (trace w) ++ [request_for args (jpeg pil)]
  /\ image_url_of (request_for args (jpeg pil))
     = Ok (PyStr (data_uri_prefix +:+ b64encode (jpeg pil))).
Proof.
  intros Hsave. split; [| reflexivity].
  rewrite run_describe_image_gen. cbv zeta.
  assert (Hfile : files (after_snapshot args n i pil w) !! orig_tmp_path
                  = Some (jpeg pil)).
  { unfold after_snapshot, save_attempt, saved_files. cbn [files log].
    rewrite Hsave. apply lookup_insert_eq. }
  assert (Htrace : posts (trace (after_snapshot args n i pil w))
                   = posts (trace w)).
  { unfold after_snapshot, save_attempt. cbn [files trace log].
    rewrite Hsave, !posts_app. destruct (verbose args); simpl;
      by rewrite !app_nil_r. }
  rewrite Hfile. unfold described_as. fold (request_for args (jpeg pil)).
  destruct (requests_post (request_for args (jpeg pil))) as [resp | e];
    [destruct (json resp) as [v | e];
       [destruct (content_of v) as [d | e] |] |];
    destruct (remove_error orig_tmp_path _);
    cbn [snd without_file log trace]; rewrite posts_app, Htrace;
    destruct (verbose args); reflexivity.
Qed.

(** Nothing but [get_image_description] posts. *)
Lemma quiet_ret {A} (a : A) : quiet (ret a).
Proof. intros w. reflexivity. Qed.

Lemma quiet_lift {A} (r : result A) : quiet (lift r).
Proof. intros w. reflexivity. Qed.

Lemma quiet_print m : quiet (print m).
Proof. intros w. simpl. by rewrite posts_app, app_nil_r. Qed.

Lemma quiet_bind {A B} (m : M A) (k : A -> M B) :
  quiet m -> (forall a, quiet (k a)) -> quiet (bind m k).
Proof.
  intros Hm Hk w. unfold bind. specialize (Hm w).
  destruct (m w) as [[a | e] w1]; simpl in *; [| exact Hm].
  by rewrite Hk.
Qed.

Lemma quiet_try_except {A} (body : M A) (handler : exn -> M A) :
  quiet body -> (forall e, quiet (handler e)) ->
  quiet (try_except body handler).
Proof.
  intros Hb Hh w. unfold try_except. specialize (Hb w).
  destruct (body w) as [[a | e] w1]; simpl in *; [exact Hb |].
  by rewrite Hh.
Qed.

Lemma quiet_text_wrap text f mw : quiet (text_wrap text f mw).
Proof.
  intros w. unfold text_wrap.
  destruct text, f, mw;
    try (simpl; by rewrite ?posts_app, ?app_nil_r).
  by destruct (wrap_loop _ _ _ _ _ _).
Qed.

Section Quiet.

Context {E : Env}.

Lemma quiet_pil_save pil path : quiet (pil_save pil path).
Proof.
  intros w. unfold pil_save.
  by destruct (save_error pil path (files w)) as [[e fs] |].
Qed.

Lemma quiet_apply_filters args n i pil : quiet (apply_filters args n i pil).
Proof.
  intros w. rewrite run_apply_filters. simpl. rewrite posts_app.
  destruct (verbose args); [| by rewrite app_nil_r].
  unfold enabled_filters, filter_order. simpl.
  destruct (blur args >? 0), (emboss args), (gray args), (black args);
    simpl; by rewrite app_nil_r.
Qed.

Lemma quiet_overlay args d pil : quiet (overlay args d pil).
Proof.
  unfold overlay. apply quiet_bind; [apply quiet_lift |]. intros fnt.
  apply quiet_bind; [apply quiet_text_wrap |]. intros lines.
  apply quiet_ret.
Qed.

Lemma quiet_insert_image pg bbox path keep :
  quiet (insert_image pg bbox path keep).
Proof.
  intros w. rewrite run_insert_image.
  destruct (files w !! path) as [content |]; [| reflexivity].
  by destruct (insert_error content).
Qed.

(** When the snapshot is saved, whatever the options and however the loop
    body ends, its one request carries the JPEG encoding of the image as
    [Image.open] returned it; the filters, which run later, have no part
    in it. *)
Lemma process_image_posts_decoded args pg i img pil w :
  describe args = true ->
  Image_open (image_data img) = Ok pil ->
  save_error pil orig_tmp_path (files w) = None ->
  posts (trace (snd (process_image args pg i img w)))
  = posts (trace w) ++ [request_for args (jpeg pil)].
Proof.
  intros Hdescribe Hopen Hsave. unfold process_image. rewrite Hdescribe.
  erewrite run_bind by (unfold lift; rewrite Hopen; reflexivity).
  destruct (describe_image_posts_snapshot args (number pg) i pil w Hsave)
    as [Hposts _].
  rewrite <- Hposts. unfold bind at 1.
  destruct (describe_image args (number pg) i pil w) as [[d | e] w1];
    [| reflexivity].
  cbn [snd]. clear Hposts. revert w1.
  apply quiet_bind; [apply quiet_apply_filters |]. intros filtered.
  apply quiet_bind; [apply quiet_overlay |]. intros final.
  apply quiet_bind.
  - apply quiet_try_except; [apply quiet_pil_save |].
    intros e. apply quiet_print.
  - intros _. apply quiet_bind; [apply quiet_lift |]. intros bbox.
    apply quiet_insert_image.
Qed.

End Quiet.

(** C3 fails when the snapshot cannot be saved and a file is already at
    its path: the request then carries the bytes of that file ("ST"), not
    those of the image taken from the document ("PH"). *)
Theorem stale_snapshot_is_described :
  exists pg w',
    @process_image Lab.broken_snapshot (Lab.with_describe "sk" Lab.args)
      Lab.page1 0%nat Lab.photo Lab.stale_world
    = (Ok pg, w')
    /\ map image_url_of (posts (trace w'))
       = [Ok (PyStr "data:image/jpeg;base64,ST")]
    /\ @Image_open Lab.broken_snapshot (image_data Lab.photo)
       = Ok (Lab.Decoded (image_data Lab.photo))
    /\ data_uri_prefix
         +:+ @b64encode Lab.broken_snapshot
               (@jpeg Lab.broken_snapshot
                  (Lab.Decoded (image_data Lab.photo)))
       = "data:image/jpeg;base64,PH".
Proof.
  eexists _, _. split; [vm_compute; reflexivity |].
  split; [vm_compute; reflexivity |]. split; reflexivity.
Qed.

(** A content of another type is not caught: [text_wrap] calls
    [text.split] on it, and the loop body raises. *)
Lemma content_of_other_type_raises :
  fst (@process_image
         (Lab.env false
            (Ok {| status_code := 200;
                   json :=
                     Ok (PyDict
                           [("choices",
                             PyList
                               [PyDict
                                  [("message",
                                    PyDict [("content", PyInt 5)])]])]) |}))
         (Lab.with_describe "sk" Lab.args) Lab.page1 0%nat Lab.photo
         Lab.empty_world)
  = Raise AttributeError.
Proof. vm_compute. reflexivity. Qed.

(** When [os.remove] of the snapshot works, whatever happens in the
    captioning path (the snapshot cannot be saved, the request raises, the
    response is not JSON or it lacks the field), the body of the loop
    returns: the image has received the enabled filters and is inserted
    into its page at its own box; and when the captioning path fails, no
    caption text is drawn.  This needs the steps outside that path to work
    (the font loads, the save to [tmp.jpg] succeeds) and a content, if the
    service gives one, to be [None] or a str. *)
Lemma captioning_failure_keeps_image_if_removed `{E : Env}
    args pg i img pil fnt w :
  (forall fs, remove_error orig_tmp_path fs = None) ->
  describe args = true ->
  nth_error (images pg) i = Some img ->
  Image_open (image_data img) = Ok pil ->
  truetype "arial.ttf" (font_size args) = Ok fnt ->
  (forall im fs, save_error im tmp_image_path fs = None) ->
  caption_is_text args pil (files w) = true ->
  exists lines w',
    process_image args pg i img w
    = (Ok (reinserted pg (image_bbox img)
             (jpeg (draw_lines fnt lines 10
                      (run_filters args (enabled_filters args) pil)))),
       w')
    /\ (caption_fails args pil (files w) = true ->
        Forall (fun line => line = "") lines).
Proof.
  intros Hrm Hdescribe Hnth Hopen Hfont Hsave Htext.
  unfold process_image. rewrite Hdescribe.
  erewrite run_bind by (unfold lift; rewrite Hopen; reflexivity).
  destruct (describe_image_text args (number pg) i pil w Hrm Htext)
    as (d & w1 & Hd & Hdtext & Hfail).
  erewrite run_bind by exact Hd.
  erewrite run_bind by apply run_apply_filters.
  destruct (overlay_text args d
              (run_filters args (enabled_filters args) pil)
              (log w1 (if verbose args
                       then map (filter_message (number pg) i)
                              (enabled_filters args)
                       else []))
              fnt Hfont Hdtext) as (lines & w2 & Hoverlay & Hlines).
  erewrite run_bind by exact Hoverlay.
  exists lines. eexists. split.
  - apply run_reinsert; [exact Hnth | apply Hsave].
  - intros Hfails. apply Hlines, Hfail, Hfails.
Qed.

(** C9 fails when the file at the snapshot's path can neither be written
    nor removed: the snapshot save raises and is caught, the description
    is asked for, and then [os.remove(orig_tmp_path)], which is in no
    [try], raises.  The loop body stops there: the image, for which blur,
    emboss and grayscale are enabled, is neither filtered nor inserted. *)
Theorem locked_snapshot_stops_the_image :
  @save_error Lab.locked_snapshot (Lab.Decoded (image_data Lab.photo))
    orig_tmp_path (files Lab.stale_world)
  = Some (LibraryError "cannot write", files Lab.stale_world)
  /\ @enabled_filters
       (Lab.with_describe "sk" (Lab.with_filters 3 true true false Lab.args))
     = [FBlur; FEmboss; FGray]
  /\ fst (@process_image Lab.locked_snapshot
            (Lab.with_describe "sk"
               (Lab.with_filters 3 true true false Lab.args))
            Lab.page1 0%nat Lab.photo Lab.stale_world)
     = Raise (LibraryError "PermissionError")
  /\ fst (@process_page Lab.locked_snapshot
            (Lab.with_describe "sk"
               (Lab.with_filters 3 true true false Lab.args))
            Lab.page1 Lab.stale_world)
     = Raise (LibraryError "PermissionError").
Proof.
  split; [reflexivity |]. split; [reflexivity |].
  split; vm_compute; reflexivity.
Qed.

(** * Further properties of the script *)

(** ** get_image_description *)

(** [get_image_description] never raises and never changes a file; it
    posts at most one request. *)
Theorem get_image_description_returns `{E : Env}
    path prompt model key max_tokens is_verbose w :
  exists d evs,
    get_image_description path prompt model key max_tokens is_verbose w
    = (Ok d, log w evs)
    /\ (length (posts evs) <= 1)%nat.
Proof.
  destruct (files w !! path) as [content |] eqn:Hf.
  - rewrite (run_description_found _ _ _ _ _ _ content) by exact Hf.
    unfold described_as.
    destruct (requests_post _) as [resp | e];
      [| eexists _, _; split; [reflexivity | simpl; lia]].
    destruct (json resp) as [v | e];
      [| eexists _, _; split; [reflexivity | simpl; lia]].
    destruct (content_of v) as [d | e]; destruct is_verbose;
      eexists _, _; (split; [reflexivity | simpl; lia]).
  - rewrite run_description_missing by exact Hf.
    eexists _, _. split; [reflexivity | simpl; lia].
Qed.

(** When the image file is there, the request goes through and the
    response carries [choices[0].message.content], that content is
    returned, after one request that carries the base64 of the file. *)
Theorem get_image_description_success `{E : Env}
    path prompt model key max_tokens is_verbose content w resp v d :
  files w !! path = Some content ->
  requests_post
    (description_request (b64encode content) prompt model key max_tokens)
  = Ok resp ->
  json resp = Ok v ->
  content_of v = Ok d ->
  exists evs,
    get_image_description path prompt model key max_tokens is_verbose w
    = (Ok d, log w evs)
    /\ posts evs
       = [description_request (b64encode content) prompt model key
            max_tokens].
Proof.
  intros Hf Hpost Hjson Hcontent.
  rewrite (run_description_found _ _ _ _ _ _ content) by exact Hf.
  unfold described_as. rewrite Hpost, Hjson, Hcontent.
  eexists. split; [reflexivity |]. by destruct is_verbose.
Qed.

Lemma get_image_description_success_witness :
  exists evs,
    @get_image_description Lab.working "o_tmp.jpg" "What is this?"
      "gpt-4-vision-preview" "sk" 300 true Lab.stale_world
    = (Ok (PyStr "a cat"), log Lab.stale_world evs)
    /\ posts evs
       = [description_request (@b64encode Lab.working Lab.stale)
            "What is this?" "gpt-4-vision-preview" "sk" 300].
Proof.
  apply (@get_image_description_success Lab.working "o_tmp.jpg"
           "What is this?" "gpt-4-vision-preview" "sk" 300 true Lab.stale
           Lab.stale_world (Lab.described 200 "a cat")
           (PyDict
              [("choices",
                PyList
                  [PyDict [("message", PyDict [("content", PyStr "a cat")])]])])
           (PyStr "a cat")); reflexivity.
Defined.

(** When the request itself raises (no network), the exception is caught:
    the empty string is returned and the error is printed. *)
Theorem get_image_description_request_raises `{E : Env}
    path prompt model key max_tokens is_verbose content w e :
  files w !! path = Some content ->
  requests_post
    (description_request (b64encode content) prompt model key max_tokens)
  = Raise e ->
  get_image_description path prompt model key max_tokens is_verbose w
  = (Ok (PyStr ""),
     log w [Post (description_request (b64encode content) prompt model key
                    max_tokens);
            Print (DescriptionError e)]).
Proof.
  intros Hf Hpost.
  rewrite (run_description_found _ _ _ _ _ _ content) by exact Hf.
  unfold described_as. by rewrite Hpost.
Qed.

Lemma get_image_description_request_raises_witness :
  @get_image_description (Lab.env false (Raise (LibraryError "offline")))
    "o_tmp.jpg" "What is this?" "gpt-4-vision-preview" "sk" 300 false
    Lab.stale_world
  = (Ok (PyStr ""),
     log Lab.stale_world
       [Post (description_request
                (@b64encode (Lab.env false (Raise (LibraryError "offline")))
                   Lab.stale)
                "What is this?" "gpt-4-vision-preview" "sk" 300);
        Print (DescriptionError (LibraryError "offline"))]).
Proof.
  apply (@get_image_description_request_raises
           (Lab.env false (Raise (LibraryError "offline")))
           "o_tmp.jpg" "What is this?" "gpt-4-vision-preview" "sk" 300 false
           Lab.stale Lab.stale_world (LibraryError "offline")); reflexivity.
Defined.

(** ** text_wrap *)

Lemma lstrip_fixed s :
  s = "" \/ PyStr.starts_word s = true -> PyStr.lstrip s = s.
Proof.
  intros [-> | Hs]; [reflexivity |].
  destruct s as [|c s]; [reflexivity |]. simpl in *.
  by destruct (PyStr.isspace c).
Qed.

Lemma lstrip_starts s :
  PyStr.lstrip s = "" \/ PyStr.starts_word (PyStr.lstrip s) = true.
Proof.
  induction s as [|c s IH]; [by left |]. simpl.
  destruct (PyStr.isspace c) eqn:Hc; [exact IH |]. right. simpl. by rewrite Hc.
Qed.

Lemma rstrip_idem s : PyStr.rstrip (PyStr.rstrip s) = PyStr.rstrip s.
Proof.
  induction s as [|c s IH]; [reflexivity |]. simpl.
  destruct (PyStr.isspace c && PyStr.is_empty (PyStr.rstrip s)) eqn:Hc;
    [reflexivity |].
  simpl. by rewrite IH, Hc.
Qed.

Lemma strip_idem s : PyStr.strip (PyStr.strip s) = PyStr.strip s.
Proof.
  unfold PyStr.strip. rewrite lstrip_fixed; [apply rstrip_idem |].
  destruct (lstrip_starts s) as [-> | Hs]; [by left |].
  right. by rewrite starts_word_rstrip.
Qed.

(** A text that fits is returned as one line, stripped of the white space
    around it, and wrapping that line again gives it back. *)
Theorem text_wrap_fitting_text s f mw w :
  rendered_width f s <= mw ->
  text_wrap (PyStr s) (Some f) (Some mw) w = (Ok [PyStr.strip s], w)
  /\ (rendered_width f (PyStr.strip s) <= mw ->
      text_wrap (PyStr (PyStr.strip s)) (Some f) (Some mw) w
      = (Ok [PyStr.strip s], w)).
Proof.
  intros Hs. split; [by apply text_wrap_narrow |].
  intros Hstrip. rewrite text_wrap_narrow by exact Hstrip.
  by rewrite strip_idem.
Qed.

Lemma text_wrap_fitting_text_witness :
  text_wrap (PyStr " a small dog ") (Some (Lab.char_font 10)) (Some 200)
    Lab.empty_world
  = (Ok ["a small dog"], Lab.empty_world).
Proof.
  destruct (text_wrap_fitting_text " a small dog " (Lab.char_font 10) 200
              Lab.empty_world) as [H _]; [vm_compute; discriminate |].
  exact H.
Defined.

(** A text that is wider than [max_width] as a whole is cut at every
    space, however short its words are: the lines are an empty line and
    then each piece of [text.split(' ')], stripped, on a line of its own. *)
Theorem text_wrap_wide_text s f mw w :
  rendered_width f s > mw ->
  text_wrap (PyStr s) (Some f) (Some mw) w
  = (Ok ("" :: map PyStr.strip (PyStr.split PyStr.space s)), w).
Proof. apply text_wrap_wide. Qed.

Lemma text_wrap_wide_text_witness :
  text_wrap (PyStr "a b c  d") (Some (Lab.char_font 10)) (Some 50)
    Lab.empty_world
  = (Ok [""; "a"; "b"; "c"; ""; "d"], Lab.empty_world).
Proof.
  apply (text_wrap_wide_text "a b c  d" (Lab.char_font 10) 50
           Lab.empty_world).
  vm_compute. reflexivity.
Defined.

(** [text_wrap] of a str never returns an empty list, and returns either
    one line or one line more than the text has pieces. *)
Theorem text_wrap_line_count s f mw w :
  exists lines,
    text_wrap (PyStr s) (Some f) (Some mw) w = (Ok lines, w)
    /\ (length lines = 1%nat
        \/ length lines = S (length (PyStr.split PyStr.space s))).
Proof.
  destruct (Z.le_gt_cases (rendered_width f s) mw) as [Hle | Hgt].
  - eexists. split; [by apply text_wrap_narrow |]. by left.
  - eexists. split; [apply text_wrap_wide; lia |]. right.
    simpl. by rewrite length_map.
Qed.

(** ** The overlay *)

Section Overlay.

Context {E : Env}.

(** Drawing the lines of a caption one block after the other: the second
    block starts where the first one ends, the heights of its lines
    below. *)
Theorem draw_lines_app fnt lines1 lines2 y pil :
  draw_lines fnt (lines1 ++ lines2) y pil
  = draw_lines fnt lines2 (y + lines_height fnt lines1)
      (draw_lines fnt lines1 y pil).
Proof.
  revert y pil. induction lines1 as [|line lines1 IH]; intros y pil.
  - simpl. by rewrite Z.add_0_r.
  - simpl. rewrite IH. f_equal. lia.
Qed.


End Overlay.

(** ** The loop body and the loops *)

Section Loops.

Context {E : Env}.

Lemma describe_image_outcome args n i pil w :
  exists r w',
    describe_image args n i pil w = (r, w')
    /\ match r with
       | Ok _ => files w' !! orig_tmp_path = None
       | Raise e =>
           is_Some (files w' !! orig_tmp_path)
           /\ remove_error orig_tmp_path (files w') = Some e
       end.
Proof.
  rewrite run_describe_image_gen. cbv zeta.
  destruct (files (after_snapshot args n i pil w) !! orig_tmp_path)
    as [content |] eqn:Hf.
  - destruct (described_as_returns (description_prompt args)
                "gpt-4-vision-preview" (openai_key args)
                (max_openai_tokens args) (verbose args) content
                (after_snapshot args n i pil w)) as (d & evs & ->).
    destruct (remove_error orig_tmp_path
                (files (after_snapshot args n i pil w))) as [e |] eqn:Hrm;
      eexists _, _; (split; [reflexivity |]).
    + cbn [files log]. rewrite Hf. eauto.
    + apply lookup_delete_eq.
  - eexists _, _. split; [reflexivity | exact Hf].
Qed.

Lemma describe_image_returns args n i pil w :
  (forall fs, remove_error orig_tmp_path fs = None) ->
  exists d w',
    describe_image args n i pil w = (Ok d, w')
    /\ files w' !! orig_tmp_path = None.
Proof.
  intros Hrm.
  destruct (describe_image_outcome args n i pil w) as ([d | e] & w' & H & Hr).
  - eauto.
  - destruct Hr as [_ Hr]. rewrite Hrm in Hr. discriminate.
Qed.

(** The description step of the loop body raises only what
    [os.remove(orig_tmp_path)] raises, the snapshot save, the request and
    the response being inside [try]: either it returns and no snapshot is
    left behind, or the file at the snapshot's path is still there and
    [os.remove] raised on it. *)
Theorem describe_image_leaves_no_snapshot args n i pil w :
  exists r w',
    describe_image args n i pil w = (r, w')
    /\ match r with
       | Ok _ => files w' !! orig_tmp_path = None
       | Raise e =>
           is_Some (files w' !! orig_tmp_path)
           /\ remove_error orig_tmp_path (files w') = Some e
       end.
Proof. apply describe_image_outcome. Qed.

(** When the loop body returns, the page has one more insertion: at the
    box [get_image_info] gives at the image's index, with the content of
    [tmp.jpg], and nothing else of the page has changed. *)
Lemma process_image_ok args pg i img w pg' w' :
  process_image args pg i img w = (Ok pg', w') ->
  exists bbox content,
    Py.seq_get (get_image_info pg) (Z.of_nat i) = Ok bbox
    /\ files w' !! tmp_image_path = Some content
    /\ pg' = reinserted pg bbox content.
Proof.
  unfold process_image. intros H.
  apply bind_ok_inv in H as (pil & w1 & _ & H).
  apply bind_ok_inv in H as (d & w2 & _ & H).
  apply bind_ok_inv in H as (filtered & w3 & _ & H).
  apply bind_ok_inv in H as (final & w4 & _ & H).
  apply bind_ok_inv in H as ([] & w5 & _ & H).
  apply bind_ok_inv in H as (bbox & w6 & Hbox & H).
  unfold lift in Hbox. injection Hbox as Hbox _.
  rewrite run_insert_image in H.
  destruct (files w6 !! tmp_image_path) as [content |] eqn:Hf;
    [| discriminate].
  destruct (insert_error content); [discriminate |].
  injection H as <- <-. exists bbox, content. by rewrite Hf.
Qed.

Lemma process_images_ok args imgs : forall pg i w pg' w',
  (forall j img, nth_error imgs j = Some img ->
                 nth_error (images pg) (i + j) = Some img) ->
  process_images args pg i imgs w = (Ok pg', w') ->
  number pg' = number pg
  /\ images pg' = images pg
  /\ exists ins,
      inserted pg' = inserted pg ++ ins
      /\ map at_bbox ins = map image_bbox imgs
      /\ Forall (fun x => keep_proportion x = true) ins.
Proof.
  induction imgs as [|img rest IH]; intros pg i w pg' w' Hnth H.
  - injection H as <- _. repeat split. exists []. by rewrite app_nil_r.
  - simpl in H. apply bind_ok_inv in H as (pg1 & w1 & H1 & H).
    apply process_image_ok in H1 as (bbox & content & Hbox & _ & ->).
    rewrite (image_info_nth pg i img) in Hbox
      by (rewrite <- (Nat.add_0_r i); by apply Hnth).
    injection Hbox as <-.
    apply IH in H as (Hnum & Himgs & ins & Hins & Hboxes & Hkeep).
    + split; [exact Hnum |]. split; [exact Himgs |].
      eexists (_ :: ins). split; [| split].
      * rewrite Hins. simpl. rewrite <- app_assoc. reflexivity.
      * simpl. by rewrite Hboxes.
      * by constructor.
    + intros j img' Hj. unfold reinserted. cbn [images].
      replace (S i + j)%nat with (i + S j)%nat by lia. by apply Hnth.
Qed.

Lemma process_page_ok args pg w pg' w' :
  process_page args pg w = (Ok pg', w') ->
  page_rewritten pg pg' /\ files w' !! tmp_image_path = None.
Proof.
  unfold process_page. intros H.
  erewrite run_bind in H by apply run_when_print.
  apply bind_ok_inv in H as (pg1 & w1 & H1 & H).
  rewrite run_cleanup_gen in H.
  assert (pg' = pg1 /\ files w' !! tmp_image_path = None) as [-> Hgone].
  { destruct (files w1 !! tmp_image_path) as [content |] eqn:Hf.
    - destruct (remove_error tmp_image_path (files w1)); [discriminate |].
      injection H as <- <-. split; [reflexivity | apply lookup_delete_eq].
    - injection H as <- <-. by split. }
  split; [| exact Hgone].
  by eapply (process_images_ok args (images pg) pg 0%nat); [| exact H1].
Qed.

(** One page: when [process_page] returns, the page keeps its number and
    its images and has one more insertion per image, in order, each at
    the box of its image and with [keep_proportion=True]; and no
    [tmp.jpg] is left behind. *)
Theorem process_page_rewrites args pg w pg' w' :
  process_page args pg w = (Ok pg', w') ->
  page_rewritten pg pg' /\ files w' !! tmp_image_path = None.
Proof. apply process_page_ok. Qed.

Lemma process_pages_ok args doc : forall w doc' w',
  process_pages args doc w = (Ok doc', w') ->
  Forall2 page_rewritten doc doc'.
Proof.
  induction doc as [|pg rest IH]; intros w doc' w' H.
  - injection H as <- _. constructor.
  - simpl in H. apply bind_ok_inv in H as (pg1 & w1 & H1 & H).
    apply bind_ok_inv in H as (rest1 & w2 & H2 & H).
    injection H as <- _. constructor; [| by eapply IH].
    by apply process_page_ok in H1 as [? _].
Qed.

(** The whole run: when [extract_pdf] returns and it was not stopped by
    the missing key, the input file held a document, and the output file
    holds that document with every page rewritten: same pages, same
    images, one insertion per image at the box of that image. *)
Theorem extract_pdf_output args w w' :
  describe args && PyStr.is_empty (openai_key args) = false ->
  extract_pdf args w = (Ok tt, w') ->
  exists content doc doc',
    files w !! pdf_file args = Some content
    /\ fitz_parse content = Ok doc
    /\ Forall2 page_rewritten doc doc'
    /\ files w' !! output_file args = Some (fitz_write doc').
Proof.
  intros Hkey H. unfold extract_pdf in H. rewrite Hkey in H.
  apply bind_ok_inv in H as (doc & w1 & Hopen & H).
  apply bind_ok_inv in H as (doc' & w2 & Hpages & H).
  unfold doc_save, write_file, bind, ret in H.
  destruct (fitz_save_error _ _ _ _); [discriminate |]. injection H as <-.
  unfold fitz_open, bind, emit, read_file, lift in Hopen. cbn [files] in Hopen.
  destruct (files w !! pdf_file args) as [content |]; [| discriminate].
  exists content, doc, doc'. split; [reflexivity |].
  split; [congruence |]. split; [by eapply process_pages_ok |].
  apply lookup_insert_eq.
Qed.

End Loops.

(** ** Witnesses of the loops *)

Lemma process_page_rewrites_witness :
  exists pg' w',
    @process_page Lab.working (Lab.with_filters 3 false true false Lab.args)
      Lab.page1 Lab.world_with_pdf
    = (Ok pg', w')
    /\ page_rewritten Lab.page1 pg'
    /\ files w' !! tmp_image_path = None.
Proof.
  eexists _, _. split; [vm_compute; reflexivity |].
  apply (@process_page_rewrites Lab.working
           (Lab.with_filters 3 false true false Lab.args) Lab.page1
           Lab.world_with_pdf).
  vm_compute. reflexivity.
Defined.

Lemma extract_pdf_output_witness :
  exists w',
    @extract_pdf Lab.working (Lab.with_filters 3 false true false Lab.args)
      Lab.world_with_pdf
    = (Ok tt, w')
    /\ exists content doc doc',
        files Lab.world_with_pdf !! "in.pdf" = Some content
        /\ @fitz_parse Lab.working content = Ok doc
        /\ Forall2 page_rewritten doc doc'
        /\ files w' !! "output.pdf" = Some (@fitz_write Lab.working doc').
Proof.
  eexists. split; [vm_compute; reflexivity |].
  apply (@extract_pdf_output Lab.working
           (Lab.with_filters 3 false true false Lab.args)
           Lab.world_with_pdf).
  - reflexivity.
  - vm_compute. reflexivity.
Defined.

(** ** The loop body without and with the description *)

Section Body.

Context {E : Env}.

(** With no filter enabled (a radius of 0 or less, no flag) the transform
    chain returns the image it was given and prints nothing, also with
    [verbose]. *)
Theorem apply_filters_none_enabled args n i pil w :
  blur args <= 0 ->
  emboss args = false -> gray args = false -> black args = false ->
  apply_filters args n i pil w = (Ok pil, w).
Proof.
  intros Hblur Hemboss Hgray Hblack. rewrite run_apply_filters.
  unfold enabled_filters, filter_order. simpl.
  rewrite Hemboss, Hgray, Hblack.
  destruct (Z.gtb_spec (blur args) 0) as [? | _]; [lia |].
  simpl. destruct (verbose args); by rewrite log_nil.
Qed.

(** Without [--describe], when the save to [tmp.jpg] works, the loop body
    inserts the JPEG encoding of the filtered image at the box of the
    image, leaves it in [tmp.jpg] and posts nothing. *)
Theorem process_image_plain args pg i img pil w :
  describe args = false ->
  nth_error (images pg) i = Some img ->
  Image_open (image_data img) = Ok pil ->
  (forall fs,
     save_error (run_filters args (enabled_filters args) pil)
       tmp_image_path fs = None) ->
  exists w',
    process_image args pg i img w
    = (Ok (reinserted pg (image_bbox img)
             (jpeg (run_filters args (enabled_filters args) pil))),
       w')
    /\ files w'
       = <[tmp_image_path
           := jpeg (run_filters args (enabled_filters args) pil)]> (files w)
    /\ posts (trace w') = posts (trace w).
Proof.
  intros Hdescribe Hnth Hopen Hsave.
  rewrite (run_process_image_plain args pg i img pil) by assumption.
  cbv zeta. unfold save_attempt, saved_files. cbn [files trace log].
  rewrite Hsave, lookup_insert_eq, jpeg_inserts.
  eexists. split; [reflexivity |]. split; [reflexivity |].
  cbn [trace]. rewrite app_nil_r, posts_app.
  destruct (verbose args); [| simpl; by rewrite app_nil_r].
  unfold enabled_filters, filter_order. simpl.
  destruct (blur args >? 0), (emboss args), (gray args), (black args);
    simpl; by rewrite app_nil_r.
Qed.

(** When the save to [tmp.jpg] raises and a [tmp.jpg] is there (that of
    the image before, which is only removed at the end of the page), the
    exception is printed and that file is what [insert_image] is given:
    when it is an image, it is inserted at the box of this image;
    otherwise the loop body raises what [insert_image] raises. *)
Theorem process_image_failed_save_inserts_old_file
    args pg i img pil w e fs content :
  describe args = false ->
  nth_error (images pg) i = Some img ->
  Image_open (image_data img) = Ok pil ->
  save_error (run_filters args (enabled_filters args) pil) tmp_image_path
    (files w)
  = Some (e, fs) ->
  fs !! tmp_image_path = Some content ->
  exists w',
    process_image args pg i img w
    = (match insert_error content with
       | None => Ok (reinserted pg (image_bbox img) content)
       | Some e' => Raise e'
       end, w').
Proof.
  intros Hdescribe Hnth Hopen Hsave Hold.
  rewrite (run_process_image_plain args pg i img pil) by assumption.
  cbv zeta. unfold save_attempt, saved_files. cbn [files trace log].
  rewrite Hsave, Hold. destruct (insert_error content); eauto.
Qed.

(** When the save to [tmp.jpg] raises and no [tmp.jpg] is there, the
    insertion raises: the loop body, and with it the run, stops. *)
Theorem process_image_failed_save_aborts args pg i img pil w e fs :
  describe args = false ->
  nth_error (images pg) i = Some img ->
  Image_open (image_data img) = Ok pil ->
  save_error (run_filters args (enabled_filters args) pil) tmp_image_path
    (files w)
  = Some (e, fs) ->
  fs !! tmp_image_path = None ->
  fst (process_image args pg i img w) = Raise FileNotFoundError.
Proof.
  intros Hdescribe Hnth Hopen Hsave Hold.
  rewrite (run_process_image_plain args pg i img pil) by assumption.
  cbv zeta. unfold save_attempt, saved_files. cbn [files trace log].
  by rewrite Hsave, Hold.
Qed.



End Body.

(** ** Witnesses of the loop body *)

Lemma apply_filters_none_enabled_witness :
  @apply_filters Lab.working (Lab.with_filters (-3) false false false Lab.args)
    0 0%nat (Lab.Decoded []) Lab.empty_world
  = (Ok (Lab.Decoded []), Lab.empty_world).
Proof.
  apply (@apply_filters_none_enabled Lab.working
           (Lab.with_filters (-3) false false false Lab.args) 0 0%nat
           (Lab.Decoded []) Lab.empty_world);
    [vm_compute; discriminate | reflexivity | reflexivity | reflexivity].
Defined.

Lemma process_image_plain_witness :
  exists w',
    @process_image Lab.working (Lab.with_filters 3 false true false Lab.args)
      Lab.page1 0%nat Lab.photo Lab.empty_world
    = (Ok (reinserted Lab.page1 (image_bbox Lab.photo)
             (Lab.encode
                (Lab.Converted "L"
                   (Lab.Blurred 3 (Lab.Decoded (image_data Lab.photo)))))),
       w')
    /\ files w'
       = <[tmp_image_path
           := Lab.encode
                (Lab.Converted "L"
                   (Lab.Blurred 3 (Lab.Decoded (image_data Lab.photo))))]>
           (files Lab.empty_world)
    /\ posts (trace w') = posts (trace Lab.empty_world).
Proof.
  apply (@process_image_plain Lab.working
           (Lab.with_filters 3 false true false Lab.args) Lab.page1 0%nat
           Lab.photo (Lab.Decoded (image_data Lab.photo)) Lab.empty_world).
  - reflexivity.
  - reflexivity.
  - reflexivity.
  - intros fs. reflexivity.
Defined.

Lemma process_image_failed_save_inserts_old_file_witness :
  exists w',
    @process_image Lab.no_save Lab.args Lab.page1 0%nat Lab.photo
      Lab.world_with_old_tmp
    = (Ok (reinserted Lab.page1 (image_bbox Lab.photo)
             (Lab.encode (Lab.Embossed (Lab.Decoded [Byte.x4f])))),
       w').
Proof.
  apply (@process_image_failed_save_inserts_old_file Lab.no_save Lab.args
           Lab.page1 0%nat Lab.photo (Lab.Decoded (image_data Lab.photo))
           Lab.world_with_old_tmp (LibraryError "cannot write")
           (files Lab.world_with_old_tmp)
           (Lab.encode (Lab.Embossed (Lab.Decoded [Byte.x4f]))));
    reflexivity.
Defined.

Lemma process_image_failed_save_aborts_witness :
  fst (@process_image Lab.no_save Lab.args Lab.page1 0%nat Lab.photo
         Lab.empty_world)
  = Raise FileNotFoundError.
Proof.
  apply (@process_image_failed_save_aborts Lab.no_save Lab.args Lab.page1
           0%nat Lab.photo (Lab.Decoded (image_data Lab.photo))
           Lab.empty_world (LibraryError "cannot write")
           (files Lab.empty_world)); reflexivity.
Defined.



(** ** The whole run *)

Lemma quiet_emit_open path : quiet (emit (Open path)).
Proof. intros w. simpl. by rewrite posts_app, app_nil_r. Qed.

Lemma quiet_read_file path : quiet (read_file path).
Proof. intros w. unfold read_file. by destruct (files w !! path). Qed.

Section Run.

Context {E : Env}.

Lemma quiet_cleanup {A} path (k : M A) :
  quiet k ->
  quiet (let* found := path_exists path in when found (os_remove path);;; k).
Proof.
  intros Hk w. rewrite run_cleanup_gen.
  destruct (files w !! path); [| apply Hk].
  destruct (remove_error path (files w)); [reflexivity |].
  by rewrite Hk.
Qed.

Lemma quiet_process_image args pg i img :
  describe args = false -> quiet (process_image args pg i img).
Proof.
  intros Hdescribe. unfold process_image. rewrite Hdescribe.
  apply quiet_bind; [apply quiet_lift |]. intros pil.
  apply quiet_bind; [apply quiet_ret |]. intros d.
  apply quiet_bind; [apply quiet_apply_filters |]. intros filtered.
  apply quiet_bind; [apply quiet_ret |]. intros final.
  apply quiet_bind.
  - apply quiet_try_except; [apply quiet_pil_save |].
    intros e. apply quiet_print.
  - intros _. apply quiet_bind; [apply quiet_lift |]. intros bbox.
    apply quiet_insert_image.
Qed.

Lemma quiet_process_images args imgs : forall pg i,
  describe args = false -> quiet (process_images args pg i imgs).
Proof.
  induction imgs as [|img rest IH]; intros pg i Hdescribe;
    [apply quiet_ret |].
  simpl. apply quiet_bind; [by apply quiet_process_image |].
  intros pg1. by apply IH.
Qed.

Lemma quiet_process_page args pg :
  describe args = false -> quiet (process_page args pg).
Proof.
  intros Hdescribe. unfold process_page.
  apply quiet_bind.
  { destruct (verbose args); [apply quiet_print | apply quiet_ret]. }
  intros _. apply quiet_bind; [by apply quiet_process_images |].
  intros pg1. apply quiet_cleanup, quiet_ret.
Qed.

Lemma quiet_process_pages args doc :
  describe args = false -> quiet (process_pages args doc).
Proof.
  intros Hdescribe. induction doc as [|pg rest IH]; [apply quiet_ret |].
  simpl. apply quiet_bind; [by apply quiet_process_page |].
  intros pg1. apply quiet_bind; [exact IH |]. intros rest1. apply quiet_ret.
Qed.

(** Without [--describe] a run posts nothing, whatever the document and
    however the run ends. *)
Theorem extract_pdf_without_describe_posts_nothing args w :
  describe args = false ->
  posts (trace (snd (extract_pdf args w))) = posts (trace w).
Proof.
  intros Hdescribe. revert w. change (quiet (extract_pdf args)).
  unfold extract_pdf. rewrite Hdescribe. simpl.
  apply quiet_bind.
  { unfold fitz_open. apply quiet_bind; [apply quiet_emit_open |].
    intros _. apply quiet_bind; [apply quiet_read_file |].
    intros content. apply quiet_lift. }
  intros doc. apply quiet_bind; [by apply quiet_process_pages |].
  intros doc'. apply quiet_bind; [| intros; apply quiet_ret].
  intros w. unfold doc_save.
  by destruct (fitz_save_error _ _ _ _).
Qed.

(** When the input file is not there (and the run is not stopped by the
    missing key), [extract_pdf] raises [FileNotFoundError] on opening it:
    no file is written, changed or removed. *)
Theorem extract_pdf_missing_input args w :
  describe args && PyStr.is_empty (openai_key args) = false ->
  files w !! pdf_file args = None ->
  extract_pdf args w
  = (Raise FileNotFoundError, log w [Open (pdf_file args)]).
Proof.
  intros Hkey Hf. unfold extract_pdf. rewrite Hkey.
  unfold fitz_open, bind, emit, read_file. cbn [files]. by rewrite Hf.
Qed.

(** When the document cannot be parsed, [extract_pdf] raises what
    [fitz.open] raises, and no file is written, changed or removed. *)
Theorem extract_pdf_unreadable_input args w content e :
  describe args && PyStr.is_empty (openai_key args) = false ->
  files w !! pdf_file args = Some content ->
  fitz_parse content = Raise e ->
  extract_pdf args w = (Raise e, log w [Open (pdf_file args)]).
Proof.
  intros Hkey Hf Hparse. unfold extract_pdf. rewrite Hkey.
  unfold fitz_open, bind, emit, read_file, lift. cbn [files].
  by rewrite Hf, Hparse.
Qed.

Lemma process_pages_without_images args doc : forall w,
  (forall fs, remove_error tmp_image_path fs = None) ->
  Forall (fun pg => images pg = []) doc ->
  exists evs,
    process_pages args doc w
    = (Ok doc,
       {| files := match doc with
                   | [] => files w
                   | _ :: _ => delete tmp_image_path (files w)
                   end;
          trace := trace w ++ evs |})
    /\ posts evs = [].
Proof.
  induction doc as [|pg rest IH]; intros w Hrm Hdoc.
  - exists []. split; [| reflexivity].
    destruct w. simpl. by rewrite app_nil_r.
  - inversion Hdoc as [|? ? Hpg Hrest]; subst.
    simpl process_pages. unfold process_page.
    erewrite (run_bind (bind _ _)).
    2: { erewrite run_bind by apply run_when_print.
         rewrite Hpg. simpl process_images.
         erewrite run_bind by reflexivity.
         rewrite run_cleanup by (right; apply Hrm). reflexivity. }
    destruct (IH (without_file tmp_image_path
                    (log w (if verbose args
                            then [Print (ProcessingPage (number pg))]
                            else []))) Hrm Hrest) as (evs & Hrun & Hquiet).
    erewrite run_bind by exact Hrun.
    exists ((if verbose args
             then [Print (ProcessingPage (number pg))] else []) ++ evs).
    split.
    + unfold ret. f_equal. f_equal.
      * destruct rest; cbn [files without_file log]; [reflexivity |].
        apply delete_delete_eq.
      * cbn [trace without_file log]. by rewrite <- app_assoc.
    + rewrite posts_app, Hquiet. by destruct (verbose args).
Qed.

(** A document without images passes through when [os.remove] and
    [doc.save] work: the output file holds the document as it was read
    and nothing is posted.  A [tmp.jpg] that happens to be there is
    removed as soon as the document has a page. *)
Theorem extract_pdf_without_images args w content doc :
  describe args && PyStr.is_empty (openai_key args) = false ->
  files w !! pdf_file args = Some content ->
  fitz_parse content = Ok doc ->
  Forall (fun pg => images pg = []) doc ->
  (forall fs, remove_error tmp_image_path fs = None) ->
  (forall fs,
     fitz_save_error (pdf_file args) doc (output_file args) fs = None) ->
  exists w',
    extract_pdf args w = (Ok tt, w')
    /\ files w'
       = <[output_file args := fitz_write doc]>
           (match doc with
            | [] => files w
            | _ :: _ => delete tmp_image_path (files w)
            end)
    /\ posts (trace w') = posts (trace w).
Proof.
  intros Hkey Hf Hparse Hdoc Hrm Hsave. unfold extract_pdf. rewrite Hkey.
  erewrite run_bind.
  2: { unfold fitz_open, bind, emit, read_file, lift. cbn [files].
       rewrite Hf, Hparse. reflexivity. }
  destruct (process_pages_without_images args doc
              {| files := files w; trace := trace w ++ [Open (pdf_file args)] |}
              Hrm Hdoc) as (evs & Hrun & Hquiet).
  erewrite run_bind by exact Hrun.
  unfold doc_save, write_file, bind, ret. cbn [files trace].
  rewrite Hsave.
  eexists. split; [reflexivity |]. split; [reflexivity |].
  cbn [trace]. rewrite !posts_app, Hquiet. simpl. by rewrite !app_nil_r.
Qed.

(** When [doc.save] raises (a document without pages, an output that is
    the input, a path that cannot be written), the run raises that
    exception after all pages have been processed, and the output file is
    not written. *)
Lemma extract_pdf_save_raises args w doc doc' w1 e :
  describe args && PyStr.is_empty (openai_key args) = false ->
  fitz_open (pdf_file args) w = (Ok doc, log w [Open (pdf_file args)]) ->
  process_pages args doc (log w [Open (pdf_file args)]) = (Ok doc', w1) ->
  fitz_save_error (pdf_file args) doc' (output_file args) (files w1)
  = Some e ->
  extract_pdf args w = (Raise e, w1).
Proof.
  intros Hkey Hopen Hpages Hsave. unfold extract_pdf. rewrite Hkey.
  erewrite run_bind by exact Hopen.
  erewrite run_bind by exact Hpages.
  unfold bind, doc_save. by rewrite Hsave.
Qed.

End Run.

(** ** Witnesses of the whole run *)

Lemma extract_pdf_without_describe_posts_nothing_witness :
  posts (trace (snd (@extract_pdf Lab.working
                       (Lab.with_filters 3 false true false Lab.args)
                       Lab.world_with_pdf)))
  = posts (trace Lab.world_with_pdf).
Proof.
  apply (@extract_pdf_without_describe_posts_nothing Lab.working
           (Lab.with_filters 3 false true false Lab.args)
           Lab.world_with_pdf).
  reflexivity.
Defined.

Lemma extract_pdf_missing_input_witness :
  @extract_pdf Lab.working Lab.args Lab.empty_world
  = (Raise FileNotFoundError, log Lab.empty_world [Open "in.pdf"]).
Proof.
  apply (@extract_pdf_missing_input Lab.working Lab.args Lab.empty_world);
    reflexivity.
Defined.

Lemma extract_pdf_unreadable_input_witness :
  @extract_pdf
    (Lab.with_document Lab.working
       (fun _ => Raise (LibraryError "cannot open broken document")))
    Lab.args Lab.world_with_pdf
  = (Raise (LibraryError "cannot open broken document"),
     log Lab.world_with_pdf [Open "in.pdf"]).
Proof.
  apply (@extract_pdf_unreadable_input
           (Lab.with_document Lab.working
              (fun _ => Raise (LibraryError "cannot open broken document")))
           Lab.args Lab.world_with_pdf [Byte.x25]
           (LibraryError "cannot open broken document")); reflexivity.
Defined.

Lemma extract_pdf_without_images_witness :
  exists w',
    @extract_pdf
      (Lab.with_document Lab.working (fun _ => Ok [Lab.text_page]))
      (Lab.with_filters 3 true true true Lab.args) Lab.world_with_pdf
    = (Ok tt, w')
    /\ files w'
       = <["output.pdf" := []]>
           (delete tmp_image_path (files Lab.world_with_pdf))
    /\ posts (trace w') = posts (trace Lab.world_with_pdf).
Proof.
  apply (@extract_pdf_without_images
           (Lab.with_document Lab.working (fun _ => Ok [Lab.text_page]))
           (Lab.with_filters 3 true true true Lab.args) Lab.world_with_pdf
           [Byte.x25] [Lab.text_page]).
  - reflexivity.
  - reflexivity.
  - reflexivity.
  - repeat constructor.
  - intros fs. reflexivity.
  - intros fs. reflexivity.
Defined.
